(** * TIAS spiders: index-page link discovery and detail-page field extraction

    A shallow embedding of [tias_links_spider.py] (class [TiasLinksSpider])
    and [tias_pdf_spider.py] (class [TiasPdfSpider]).

    Conventions of the embedding.
    - A Python [str] is a [list ascii]; a character is a code point in
      0..255 and the character classes below are Python's classes
      restricted to that range.
    - [list(set(xs))] is [elements (list_to_set xs)] over [gset]: duplicate
      free, in an order the statements never depend on.
    - A rendered response is a record holding the URL, the status, the text
      and the answers of the selector engine ([css], [xpath]); the year
      list read at start-up is a parameter.
    - [urljoin] is a parameter that answers [None] where Python's raises
      [ValueError]; the file system is a parameter ([disk]) that says
      which writes succeed. A parse step carries the exception it ends
      with, if any, next to its trace.
    - Log calls, file writes and yielded items are kept, in program order,
      in one trace of events. *)

From Stdlib Require Import Ascii String ZArith NArith List Bool Lia.
From stdpp Require Import base list gmap sets strings.

Local Open Scope list_scope.

Abbreviation pystr := (list ascii).

(** Literal strings of the source are written [str "..."]. *)
Definition str (s : string) : pystr := list_ascii_of_string s.

(** ** Characters *)

Module Char.

Definition code (c : ascii) : N := N_of_ascii c.

Definition in_range (lo hi : N) (c : ascii) : bool :=
  (lo <=? code c)%N && (code c <=? hi)%N.

(** [\d] and [str.isdecimal]. *)
Definition is_digit (c : ascii) : bool := in_range 48 57 c.

(** [\s] and [str.isspace]: TAB..CR, FS..US, SPACE, NEL, NBSP. *)
Definition is_space (c : ascii) : bool :=
  in_range 9 13 c || in_range 28 32 c
  || (code c =? 133)%N || (code c =? 160)%N.

(** [\w]: [str.isalnum] or the underscore. *)
Definition is_word (c : ascii) : bool :=
  in_range 48 57 c || in_range 65 90 c || in_range 97 122 c
  || (code c =? 95)%N
  || (code c =? 170)%N || in_range 178 179 c || (code c =? 181)%N
  || in_range 185 186 c || in_range 188 190 c
  || in_range 192 214 c || in_range 216 246 c || in_range 248 255 c.

Definition is_upper (c : ascii) : bool :=
  in_range 65 90 c || in_range 192 214 c || in_range 216 222 c.

(** [str.lower] on one character. *)
Definition lower (c : ascii) : ascii :=
  if is_upper c then ascii_of_N (code c + 32) else c.

Definition is_word_opt (o : option ascii) : bool :=
  match o with Some c => is_word c | None => false end.

(** Neither [r] nor [R]. *)
Definition not_r (c : ascii) : Prop := lower c ≠ "r"%char.

End Char.

(** ** Python string methods *)

Module Py.

Definition lower (s : pystr) : pystr := map Char.lower s.

Fixpoint is_prefix (p s : pystr) : bool :=
  match p, s with
  | [], _ => true
  | a :: p', b :: s' => Ascii.eqb a b && is_prefix p' s'
  | _ :: _, [] => false
  end.

(** [needle in hay]. *)
Fixpoint contains (needle hay : pystr) : bool :=
  is_prefix needle hay
  || match hay with
     | [] => false
     | _ :: r => contains needle r
     end.

Fixpoint lstrip (s : pystr) : pystr :=
  match s with
  | c :: r => if Char.is_space c then lstrip r else s
  | [] => []
  end.

Definition rstrip (s : pystr) : pystr := rev (lstrip (rev s)).

(** [s.strip()]. *)
Definition strip (s : pystr) : pystr := rstrip (lstrip s).

(** [s.replace(c, '')] for a one-character [c]. *)
Definition remove_char (c : ascii) (s : pystr) : pystr :=
  filter (fun a => a ≠ c) s.

(** [sep.join(l)]. *)
Fixpoint join (sep : pystr) (l : list pystr) : pystr :=
  match l with
  | [] => []
  | [x] => x
  | x :: r => x ++ sep ++ join sep r
  end.

(** [s.split(c)] for a one-character separator: never empty. *)
Fixpoint split (c : ascii) (s : pystr) : list pystr :=
  match s with
  | [] => [[]]
  | a :: r =>
      if Ascii.eqb a c then [] :: split c r
      else match split c r with
           | w :: ws => (a :: w) :: ws
           | [] => [[a]]
           end
  end.

(** [l[-k]] for [k >= 1]; [None] stands for [IndexError]. *)
Definition index_from_end {A} (k : nat) (l : list A) : option A :=
  if decide (1 <= k <= length l) then l !! (length l - k) else None.

(** [l[:n]]: a negative bound counts from the end. *)
Definition slice_to {A} (n : Z) (l : list A) : list A :=
  if (0 <=? n)%Z then take (Z.to_nat n) l
  else take (length l - Z.to_nat (- n)) l.

(** [l.count(x)]. *)
Definition count (x : pystr) (l : list pystr) : nat :=
  length (List.filter (fun y => bool_decide (y = x)) l).

(** [sel.get(default='')] on the answers of [getall]. *)
Definition get_default (l : list pystr) : pystr :=
  match l with
  | x :: _ => x
  | [] => []
  end.

(** Neither the first nor the last character is a blank. *)
Definition clean_ends (s : pystr) : bool :=
  match head s, last s with
  | Some a, Some b => negb (Char.is_space a) && negb (Char.is_space b)
  | _, _ => true
  end.

(** What reading in text mode does to line ends: [\r\n] and a lone [\r]
    become [\n]. *)
Fixpoint universal_newlines (s : pystr) : pystr :=
  match s with
  | [] => []
  | c :: r =>
      if Ascii.eqb c "013" then
        "010"%char
        :: match r with
           | n :: r' =>
               if Ascii.eqb n "010" then universal_newlines r'
               else universal_newlines r
           | [] => []
           end
      else c :: universal_newlines r
  end.

(** The lines of a text, each with its newline, as [for line in f]
    gives them. *)
Fixpoint lines (s : pystr) : list pystr :=
  match s with
  | [] => []
  | c :: r =>
      if Ascii.eqb c "010" then [c] :: lines r
      else match lines r with
           | l :: ls => (c :: l) :: ls
           | [] => [[c]]
           end
  end.

End Py.

(** ** Regular expressions

    A backtracking matcher in continuation-passing style, as [re] runs the
    patterns of the spiders: a pattern takes the continuation matching
    what follows it, alternatives are tried in [re]'s order (greedy: the
    longer one first; lazy: the shorter one first) and the first success
    wins. A continuation receives the character before the current
    position (for [\b]), the offset from the start of the attempt and the
    remaining input. *)

Module Re.

Section Matcher.
Context {R : Type}.

Definition cont : Type := option ascii -> nat -> pystr -> option R.

(** One character of a class. *)
Definition cls (p : ascii -> bool) (k : cont) : cont :=
  fun prev n s =>
    match s with
    | c :: r => if p c then k (Some c) (S n) r else None
    | [] => None
    end.

Definition chr (c : ascii) : cont -> cont := cls (Ascii.eqb c).

Fixpoint lit (w : pystr) (k : cont) : cont :=
  match w with
  | [] => k
  | c :: w' => chr c (lit w' k)
  end.

(** [x?], greedy. *)
Definition opt (m : cont -> cont) (k : cont) : cont :=
  fun prev n s =>
    match m k prev n s with
    | Some r => Some r
    | None => k prev n s
    end.

(** [x{n}]. *)
Fixpoint times (n : nat) (m : cont -> cont) (k : cont) : cont :=
  match n with
  | O => k
  | S n' => m (times n' m k)
  end.

(** [x{0,n}], greedy. *)
Fixpoint upto (n : nat) (m : cont -> cont) (k : cont) : cont :=
  match n with
  | O => k
  | S n' => opt (fun k' => m (upto n' m k')) k
  end.

(** [c*] for a class [c], greedy. *)
Fixpoint star (p : ascii -> bool) (k : cont)
    (prev : option ascii) (n : nat) (s : pystr) {struct s} : option R :=
  match s with
  | c :: r =>
      if p c then
        match star p k (Some c) (S n) r with
        | Some x => Some x
        | None => k prev n s
        end
      else k prev n s
  | [] => k prev n s
  end.

(** [c+] for a class [c], greedy. *)
Definition plus (p : ascii -> bool) (k : cont) : cont := cls p (star p k).

(** [c*?] for a class [c], lazy. *)
Fixpoint star_lazy (p : ascii -> bool) (k : cont)
    (prev : option ascii) (n : nat) (s : pystr) {struct s} : option R :=
  match k prev n s with
  | Some x => Some x
  | None =>
      match s with
      | c :: r => if p c then star_lazy p k (Some c) (S n) r else None
      | [] => None
      end
  end.

(** [\b]. *)
Definition word_boundary (k : cont) : cont :=
  fun prev n s =>
    if xorb (Char.is_word_opt prev) (Char.is_word_opt (head s))
    then k prev n s else None.

(** [$] without [re.MULTILINE]: the end of the string, or just before
    a newline that ends it. *)
Definition eol (k : cont) : cont :=
  fun prev n s =>
    match s with
    | [] => k prev n s
    | [c] => if Ascii.eqb c "010" then k prev n s else None
    | _ => None
    end.

(** The current offset, for the bounds of a group. *)
Definition mark (f : nat -> cont) : cont := fun prev n s => f n prev n s.

End Matcher.

(** What a successful attempt reports: the length of the match and the
    bounds of its group 1 (of the whole match when there is no group). *)
Record span := { m_end : nat; g_start : nat; g_end : nat }.

Definition accept : @cont span :=
  fun _ n _ => Some {| m_end := n; g_start := 0; g_end := n |}.

Definition accept_group (b e : nat) : @cont span :=
  fun _ n _ => Some {| m_end := n; g_start := b; g_end := e |}.

(** A compiled pattern, applied at one position. *)
Definition pattern : Type := option ascii -> pystr -> option span.

Definition slice (b e : nat) (s : pystr) : pystr := take (e - b) (drop b s).

(** What [findall] lists for a match at the head of [s]. *)
Definition group1 (sp : span) (s : pystr) : pystr :=
  slice (g_start sp) (g_end sp) s.

(** [re.match(p, s)] as a truth value. *)
Definition matches (p : pattern) (s : pystr) : bool :=
  match p None s with Some _ => true | None => false end.

(** [re.search(p, s)]: the leftmost position where an attempt succeeds;
    the answer is group 1. *)
Fixpoint search_from (p : pattern) (prev : option ascii) (s : pystr)
    : option pystr :=
  match p prev s with
  | Some sp => Some (group1 sp s)
  | None =>
      match s with
      | c :: r => search_from p (Some c) r
      | [] => None
      end
  end.

Definition search (p : pattern) (s : pystr) : option pystr :=
  search_from p None s.

(** [re.findall(p, s)]: leftmost matches that do not overlap. [skip]
    counts the characters of the last match still to be passed. (No
    pattern of the spiders matches the empty string.) *)
Fixpoint findall_from (p : pattern) (prev : option ascii) (skip : nat)
    (s : pystr) : list pystr :=
  match s with
  | [] =>
      match skip, p prev [] with
      | O, Some sp => [group1 sp []]
      | _, _ => []
      end
  | c :: r =>
      match skip with
      | S k => findall_from p (Some c) k r
      | O =>
          match p prev s with
          | Some sp => group1 sp s :: findall_from p (Some c) (pred (m_end sp)) r
          | None => findall_from p (Some c) 0 r
          end
      end
  end.

Definition findall (p : pattern) (s : pystr) : list pystr :=
  findall_from p None 0 s.

(** Three properties of a continuation, to reason about a pattern piece
    by piece: it reads nothing at or after a blank followed by a bar; it
    fails on an input that starts with a given character; a span it
    reports ends within the input and has no group. *)
Definition stops_at_bar (k : @cont span) : Prop :=
  ∀ prev n u v, k prev n (u ++ " "%char :: "|"%char :: v) = k prev n u.

Definition rejects (c : ascii) (k : @cont span) : Prop :=
  ∀ prev n w, k prev n (c :: w) = None.

(** A fourth one, for a pattern that ends in [$]: it succeeds only on
    inputs made of characters that satisfy [P]. *)
Definition all_chars (P : ascii -> Prop) (k : @cont span) : Prop :=
  ∀ prev n s sp, k prev n s = Some sp → Forall P s.

Definition in_bounds (k : @cont span) : Prop :=
  ∀ prev n s sp,
    k prev n s = Some sp →
    n <= m_end sp <= n + length s ∧ g_start sp = 0 ∧ g_end sp = m_end sp.

End Re.

(** ** The patterns of the two spiders *)

Module Patterns.
Import Re.

Definition dq : ascii := "034".

Definition site : pystr := str "https://www.state.gov/".

Definition not_rparen (c : ascii) : bool := negb (Ascii.eqb c ")").

Definition any (_ : ascii) : bool := true.

(** [[-\s]]. *)
Definition is_sep (c : ascii) : bool := Ascii.eqb c "-" || Char.is_space c.

(** [url_pattern = r'\((https://www\.state\.gov/[^\)]+)\)'] *)
Definition url_pattern : pattern := fun prev s =>
  chr "("
    (mark (fun b =>
       lit site
         (plus not_rparen
            (mark (fun e => chr ")" (accept_group b e))))))
    prev 0 s.

(** [r'https://www\.state\.gov/\d{2}-\d{3,4}$'] *)
Definition agreement_url_pattern : pattern := fun prev s =>
  lit site
    (times 2 (cls Char.is_digit)
       (chr "-"
          (times 3 (cls Char.is_digit)
             (upto 1 (cls Char.is_digit) (eol accept)))))
    prev 0 s.

(** [code_pattern = r'\b\d{2}[-\s]?\d{3,4}\b'] *)
Definition code_pattern : pattern := fun prev s =>
  word_boundary
    (times 2 (cls Char.is_digit)
       (opt (cls is_sep)
          (times 3 (cls Char.is_digit)
             (upto 1 (cls Char.is_digit) (word_boundary accept)))))
    prev 0 s.

Definition headline_open : pystr :=
  str "class=" ++ [dq] ++ str "featured-content__headline stars-above"
    ++ [dq] ++ str ">".

(** [title_pattern =
     r'class="featured-content__headline stars-above">\s*(.*?)\s*</h1>']
    with [re.DOTALL]. *)
Definition title_pattern : pattern := fun prev s =>
  lit headline_open
    (star Char.is_space
       (mark (fun b =>
          star_lazy any
            (mark (fun e =>
               star Char.is_space (lit (str "</h1>") (accept_group b e)))))))
    prev 0 s.

End Patterns.

(** ** [int(s)] for a string *)

Module PyInt.

(** The blanks [int] skips around the number. *)
Definition is_blank (c : ascii) : bool :=
  Char.in_range 9 13 c || (Char.code c =? 32)%N
  || (Char.code c =? 133)%N || (Char.code c =? 160)%N.

Fixpoint skip_blanks (s : pystr) : pystr :=
  match s with
  | c :: r => if is_blank c then skip_blanks r else s
  | [] => []
  end.

Definition trim (s : pystr) : pystr := rev (skip_blanks (rev (skip_blanks s))).

Definition digit_value (c : ascii) : Z := Z.of_N (Char.code c) - 48.

(** The interpreter's default limit on the digits of a decimal string. *)
Definition max_str_digits : nat := 4300.

(** Digits with single underscores between them. [sep] says that a digit
    must come next (at the start and after an underscore). *)
Fixpoint digits (acc : Z) (count : nat) (sep : bool) (s : pystr)
    : option (Z * nat) :=
  match s with
  | [] => if sep then None else Some (acc, count)
  | c :: r =>
      if Char.is_digit c then
        digits (10 * acc + digit_value c) (S count) false r
      else if Ascii.eqb c "_" then
        if sep then None else digits acc count true r
      else None
  end.

Definition unsigned (s : pystr) : option Z :=
  match digits 0 0 true s with
  | Some (z, count) => if decide (count <= max_str_digits) then Some z else None
  | None => None
  end.

(** [int(s)]; [None] stands for [ValueError]. *)
Definition of_str (s : pystr) : option Z :=
  match trim s with
  | c :: r =>
      if Ascii.eqb c "-" then Z.opp <$> unsigned r
      else if Ascii.eqb c "+" then unsigned r
      else unsigned (c :: r)
  | [] => None
  end.

End PyInt.

(** ** What the framework gives a spider *)

Module Scrapy.

(** [logging] levels. *)
Inductive level := DEBUG | INFO | WARNING | ERROR.

Global Instance level_eq_dec : EqDecision level.
Proof. solve_decision. Defined.

(** The parts of an f-string: literal text and interpolated values. *)
Inductive fpart :=
| FLit (s : pystr)
| FStr (s : pystr)
| FInt (z : Z)
| FList (l : list pystr)
| FHeaders (h : list (pystr * pystr)).

Definition message : Type := list fpart.

(** A message references a string when it interpolates it. *)
Definition mentions (u : pystr) (m : message) : Prop := FStr u ∈ m.

Inductive exn := IndexError | OSError | ValueError.

(** The disk a spider writes to: for a path and a text, whether the file
    can be opened and written. *)
Definition disk : Type := pystr -> pystr -> bool.

(** [with open(path, 'w', encoding='utf-8') as f: f.write(content)]:
    [open] refuses a name that holds a NUL with [ValueError] before it
    asks the disk, and a disk that refuses raises [OSError]; [None] when
    the file is written. *)
Definition write_file (d : disk) (path content : pystr) : option exn :=
  if bool_decide ("000"%char ∈ path) then Some ValueError
  else if d path content then None else Some OSError.

(** What a callback does, in program order. *)
Inductive event (I : Type) :=
| Log (lvl : level) (msg : message)
| WriteFile (path content : pystr)
| MakeDirs (path : pystr)
| Yield (item : I).
Global Arguments Log {I} lvl msg.
Global Arguments WriteFile {I} path content.
Global Arguments MakeDirs {I} path.
Global Arguments Yield {I} item.

(** [Spider.log(message, level=logging.DEBUG)]. *)
Definition log {I} (msg : message) : event I := Log DEBUG msg.
Definition log_at {I} (lvl : level) (msg : message) : event I := Log lvl msg.

(** A run of a callback: its trace, and the exception that ended it. *)
Record run (I : Type) := { trace : list (event I); raised : option exn }.
Global Arguments trace {I} r.
Global Arguments raised {I} r.

Definition yielded {I} (e : event I) : option I :=
  match e with Yield i => Some i | _ => None end.

(** The records a run emits. *)
Definition items {I} (r : run I) : list I := omap yielded (trace r).

Definition log_level {I} (e : event I) : option level :=
  match e with Log l _ => Some l | _ => None end.

(** The log lines of a run at a given level. *)
Definition logged {I} (l : level) (r : run I) : list message :=
  omap (fun e => match e with
                 | Log l' m => if decide (l' = l) then Some m else None
                 | _ => None
                 end) (trace r).

(** A rendered response; [css q] and [xpath q] stand for
    [response.css(q).getall()] and [response.xpath(q).getall()]. *)
Record response := {
  url : pystr;
  status : Z;
  headers : list (pystr * pystr);
  text : pystr;
  css : pystr -> list pystr;
  xpath : pystr -> list pystr
}.

(** ['forbidden' in response.text.lower() or response.status in [403, 429]] *)
Definition blocked (r : response) : bool :=
  Py.contains (str "forbidden") (Py.lower (text r))
  || bool_decide (status r ∈ [403; 429]%Z).

Inductive page_method :=
| wait_for_load_state (state : pystr)
| wait_for_selector (selector : pystr) (timeout : Z)
| evaluate (script : pystr)
| wait_for_timeout (ms : Z).

Record request := {
  req_url : pystr;
  req_headers : list (pystr * pystr);
  req_page_methods : list page_method
}.

End Scrapy.

(** ** [tias_links_spider.py] *)

Module TiasLinksSpider.
Import Scrapy.

(** The yielded dict [{'URL': link}]. *)
Record item := { URL : pystr }.

(** A supplied [max_years]: a string (spider arguments of the command
    line are strings) or an int (a caller in Python). *)
Inductive arg := AStr (s : pystr) | AInt (z : Z).

(** [if max_years:] *)
Definition truthy (a : option arg) : bool :=
  match a with
  | None => false
  | Some (AStr s) => negb (bool_decide (s = []))
  | Some (AInt z) => negb (z =? 0)%Z
  end.

(** [int(max_years)]; [None] stands for [ValueError]. *)
Definition int (a : arg) : option Z :=
  match a with
  | AStr s => PyInt.of_str s
  | AInt z => Some z
  end.

Definition shown (a : arg) : fpart :=
  match a with
  | AStr s => FStr s
  | AInt z => FInt z
  end.

Definition year_url (year : pystr) : pystr :=
  str "https://www.state.gov/" ++ year ++ str "-TIAS/?results=200".

Record spider := { year_urls : list pystr }.

(** [__init__(self, max_years=None)], given the years read from the
    remote CSV: the spider and what the constructor logs and creates. *)
Definition init (years : list pystr) (max_years : option arg)
    : spider * list (event item) :=
  let all := map year_url years in
  let '(urls, warned) :=
    if truthy max_years then
      match max_years with
      | Some a =>
          match int a with
          | Some n => (Py.slice_to n all, [])
          | None =>
              (all,
               [log_at WARNING
                  [FLit (str "Invalid max_years: "); shown a;
                   FLit (str ", processing all years")]])
          end
      | None => (all, [])
      end
    else (all, []) in
  ({| year_urls := urls |},
   warned
   ++ [log_at DEBUG
         [FLit (str "Processing "); FInt (Z.of_nat (length urls));
          FLit (str " year URLs: "); FList urls];
       MakeDirs (str "debug_html")]).

Definition quoted (s : pystr) : pystr := Patterns.dq :: s ++ [Patterns.dq].

Definition request_headers : list (pystr * pystr) :=
  [ (str "Accept",
     str "text/html,application/xhtml+xml,application/xml;q=0.9,image/avif,image/webp,*/*;q=0.8");
    (str "Accept-Language", str "en-US,en;q=0.5");
    (str "Accept-Encoding", str "gzip, deflate, br");
    (str "Referer", str "https://www.state.gov/");
    (str "Sec-Fetch-Dest", str "document");
    (str "Sec-Fetch-Mode", str "navigate");
    (str "Sec-Fetch-Site", str "same-origin");
    (str "Sec-Ch-Ua",
     quoted (str "Chromium") ++ str ";v=" ++ quoted (str "128") ++ str ", "
     ++ quoted (str "Not;A=Brand") ++ str ";v=" ++ quoted (str "24") ++ str ", "
     ++ quoted (str "Google Chrome") ++ str ";v=" ++ quoted (str "128"));
    (str "Sec-Ch-Ua-Mobile", str "?0");
    (str "Sec-Ch-Ua-Platform", quoted (str "macOS")) ].

Definition scroll : pystr :=
  str "window.scrollTo(0, document.body.scrollHeight)".

Definition page_methods : list page_method :=
  [ wait_for_load_state (str "networkidle");
    wait_for_selector (str "ul.collection-results li") 30000;
    evaluate scroll; wait_for_timeout 2000;
    evaluate scroll; wait_for_timeout 2000;
    evaluate scroll; wait_for_timeout 2000 ].

(** [start_requests]: one rendered request per year URL. *)
Definition start_requests (sp : spider) : list request :=
  map (fun u => {| req_url := u;
                   req_headers := request_headers;
                   req_page_methods := page_methods |})
      (year_urls sp).

Definition result_link_selector : pystr :=
  str "ul.collection-results a.collection-result__link::attr(href)".

(** Method 1: parenthesised links of the raw markup. *)
Definition markdown_links (r : response) : list pystr :=
  Re.findall Patterns.url_pattern (text r).

Definition valid_markdown_links (r : response) : list pystr :=
  List.filter (Re.matches Patterns.agreement_url_pattern) (markdown_links r).

(** Method 2: [links = list(set(links))]. *)
Definition links (r : response) : list pystr :=
  elements (list_to_set (css r result_link_selector) : gset pystr).

Definition is_year_page (link : pystr) : bool :=
  Py.contains (str "treaties-and-agreements") (Py.lower link).

(** [link and 'treaties-and-agreements' not in link.lower()] *)
Definition kept (link : pystr) : bool :=
  negb (bool_decide (link = [])) && negb (is_year_page link).

(** The links of methods 1 and 2 as sets. *)
Definition markdown_set (r : response) : gset pystr :=
  list_to_set (valid_markdown_links r).

Definition anchor_set (r : response) : gset pystr :=
  list_to_set (css r result_link_selector).

(** The list extended with the kept hrefs, then [list(set(...))]. *)
Definition agreement_links (r : response) : list pystr :=
  elements
    (list_to_set (valid_markdown_links r ++ List.filter kept (links r))
     : gset pystr).

(** The two opening log lines of [parse]. *)
Definition opening_log (r : response) : list (event item) :=
  [ log_at DEBUG
      [FLit (str "Processing URL: "); FStr (url r);
       FLit (str " (Status: "); FInt (status r); FLit (str ")")];
    log_at DEBUG [FLit (str "Response headers: "); FHeaders (headers r)] ].

(** [f"debug_html/{response.url.split('/')[-2]}.html"] *)
Definition html_file (segment : pystr) : pystr :=
  str "debug_html/" ++ segment ++ str ".html".

(** "Save HTML". *)
Definition save_html (r : response) (segment : pystr) : list (event item) :=
  [ WriteFile (html_file segment) (text r);
    log_at DEBUG [FLit (str "Saved HTML to "); FStr (html_file segment)] ].

Definition blocked_log (r : response) : event item :=
  log_at ERROR [FLit (str "Blocked or forbidden response for "); FStr (url r)].

(** Methods 1 and 2, and the loop that yields the links. *)
Definition extract (r : response) : list (event item) :=
  let md := markdown_links r in
  let valid := valid_markdown_links r in
  let all_hrefs := css r (str "a::attr(href)") in
  let final := agreement_links r in
  [ log_at DEBUG
      [FLit (str "Found "); FInt (Z.of_nat (length md));
       FLit (str " markdown links, "); FInt (Z.of_nat (length valid));
       FLit (str " valid: "); FList (take 5 valid)];
    log_at DEBUG
      [FLit (str "Found "); FInt (Z.of_nat (length all_hrefs));
       FLit (str " total <a> hrefs: "); FList (take 20 all_hrefs)];
    log_at DEBUG
      [FLit (str "Found "); FInt (Z.of_nat (length (links r)));
       FLit (str " agreement-like hrefs: "); FList (take 10 (links r))];
    log_at DEBUG
      [FLit (str "Total "); FInt (Z.of_nat (length final));
       FLit (str " unique agreement links: "); FList (take 5 final)] ]
  ++ flat_map
       (fun link =>
          [ log_at DEBUG [FLit (str "Yielding link: "); FStr link];
            Yield {| URL := link |} ])
       final.

(** [parse]: an exception of [split('/')[-2]] or of the debug write
    ends it before the blocked check. *)
Definition parse (d : disk) (r : response) : run item :=
  match Py.index_from_end 2 (Py.split "/" (url r)) with
  | None => {| trace := opening_log r; raised := Some IndexError |}
  | Some segment =>
      match write_file d (html_file segment) (text r) with
      | Some e => {| trace := opening_log r; raised := Some e |}
      | None =>
          {| trace :=
               opening_log r ++ save_html r segment
               ++ (if blocked r then [blocked_log r] else extract r);
             raised := None |}
      end
  end.

End TiasLinksSpider.

(** ** [tias_pdf_spider.py] *)

Module TiasPdfSpider.
Import Scrapy.

(** The yielded dict. *)
Record item := {
  source_url : pystr;
  title : pystr;
  paragraphs : pystr;
  agreement_codes : pystr;
  primary_pdf : pystr;
  other_pdfs : pystr
}.

Definition headline_selector : pystr :=
  str "h1.featured-content__headline.stars-above::text".

Definition pdf_anchor (what : pystr) : pystr :=
  str "a[href$=" ++ [Patterns.dq] ++ str ".pdf" ++ [Patterns.dq] ++ str "]::"
    ++ what.

(** The title of the raw-markup pattern: group 1, stripped, newlines
    and tabs removed; empty when the pattern does not match. *)
Definition pattern_title (r : response) : pystr :=
  match Re.search Patterns.title_pattern (text r) with
  | Some g => Py.remove_char "009" (Py.remove_char "010" (Py.strip g))
  | None => []
  end.

Definition selector_title (r : response) : pystr :=
  Py.strip (Py.get_default (css r headline_selector)).

Definition extract_title (r : response) : pystr :=
  let title := pattern_title r in
  if bool_decide (title = []) then selector_title r else title.

(** [[p.strip() for p in paragraph_nodes if p.strip()]] *)
Definition clean_paragraphs (nodes : list pystr) : list pystr :=
  List.filter (fun p => negb (bool_decide (p = []))) (map Py.strip nodes).

Definition paragraphs_text (nodes : list pystr) : pystr :=
  Py.join (str " | ") (clean_paragraphs nodes).

(** The pooled matches, before [list(set(...))]. *)
Definition pooled_codes (nodes link_texts : list pystr) : list pystr :=
  Re.findall Patterns.code_pattern (paragraphs_text nodes)
  ++ flat_map (Re.findall Patterns.code_pattern) link_texts.

Definition code_set (nodes link_texts : list pystr) : gset pystr :=
  list_to_set (pooled_codes nodes link_texts).

Definition extract_codes (r : response) : list pystr :=
  elements (code_set (xpath r (str "//p//text()")) (css r (pdf_anchor (str "text")))).

(** The two opening log lines of [parse]. *)
Definition opening_log (r : response) : list (event item) :=
  [ log [FLit (str "Processing URL: "); FStr (url r);
         FLit (str " (Status: "); FInt (status r); FLit (str ")")];
    log [FLit (str "Response headers: "); FHeaders (headers r)] ].

Definition blocked_log (r : response) : event item :=
  log [FLit (str "Blocked or forbidden response for "); FStr (url r)].

Section WithUrljoin.
(** [urllib.parse.urljoin]; [None] stands for the [ValueError] it raises
    on a reference it cannot parse. *)
Variable urljoin : pystr -> pystr -> option pystr.

(** [urljoin(response.url, primary_pdf) if primary_pdf else ''] *)
Definition extract_primary_pdf (r : response) : option pystr :=
  let href := Py.get_default (css r (str "a.button--download::attr(href)")) in
  if bool_decide (href = []) then Some [] else urljoin (url r) href.

(** [[urljoin(response.url, link) for link in all_pdf_links]]: the first
    reference that [urljoin] refuses ends the comprehension. *)
Definition all_pdf_links (r : response) : option (list pystr) :=
  mapM (urljoin (url r)) (css r (pdf_anchor (str "attr(href)"))).

(** [[link for link in all_pdf_links if link != primary_pdf]] *)
Definition other_pdf_links (primary : pystr) (links : list pystr)
    : list pystr :=
  List.filter (fun link => negb (bool_decide (link = primary))) links.

(** The yielded dict, given the two results of [urljoin]. *)
Definition make_record (r : response) (primary : pystr) (links : list pystr)
    : item :=
  {| source_url := url r;
     title := extract_title r;
     paragraphs := paragraphs_text (xpath r (str "//p//text()"));
     agreement_codes := Py.join (str ", ") (extract_codes r);
     primary_pdf := primary;
     other_pdfs := Py.join (str ", ") (other_pdf_links primary links) |}.

(** The record of the page, when [urljoin] raises nowhere. *)
Definition record (r : response) : option item :=
  match extract_primary_pdf r, all_pdf_links r with
  | Some primary, Some links => Some (make_record r primary links)
  | _, _ => None
  end.

(** The log lines of the title, the paragraphs and the codes. *)
Definition field_log (r : response) : list (event item) :=
  [ log [FLit (str "Extracted title: "); FStr (extract_title r)];
    log [FLit (str "Extracted ");
         FInt (Z.of_nat
                 (length (clean_paragraphs (xpath r (str "//p//text()")))));
         FLit (str " paragraphs")];
    log [FLit (str "Extracted agreement codes: ");
         FStr (Py.join (str ", ") (extract_codes r))] ].

(** The extraction, with its log lines, and the yield: a [ValueError] of
    [urljoin] ends it before the yield. *)
Definition extract (r : response) : run item :=
  match extract_primary_pdf r with
  | None => {| trace := field_log r; raised := Some ValueError |}
  | Some primary =>
      let primary_log : event item :=
        log [FLit (str "Primary PDF: "); FStr primary] in
      match all_pdf_links r with
      | None =>
          {| trace := field_log r ++ [primary_log];
             raised := Some ValueError |}
      | Some links =>
          {| trace :=
               field_log r
               ++ [ primary_log;
                    log [FLit (str "Found ");
                         FInt (Z.of_nat
                                 (length (other_pdf_links primary links)));
                         FLit (str " other PDF links")];
                    Yield (make_record r primary links) ];
             raised := None |}
      end
  end.

Definition parse (r : response) : run item :=
  if blocked r then
    {| trace := opening_log r ++ [blocked_log r]; raised := None |}
  else
    {| trace := opening_log r ++ trace (extract r);
       raised := raised (extract r) |}.

End WithUrljoin.

(** The class attribute [start_urls]. *)
Definition start_urls : list pystr :=
  [ str "https://www.state.gov/16-629/";
    str "https://www.state.gov/10-413";
    str "https://www.state.gov/argentina-97-826" ].

(** [__init__(self, urls_file=None)]: the seed URLs. [files] gives the
    text of the files that can be opened; [None] stands for the [OSError]
    of [open]. *)
Definition init (files : pystr -> option pystr) (urls_file : option pystr)
    : option (list pystr) :=
  match urls_file with
  | None => Some start_urls
  | Some path =>
      if bool_decide (path = []) then Some start_urls
      else
        match files path with
        | Some content =>
            Some (List.filter (fun line => negb (bool_decide (line = [])))
                    (map Py.strip (Py.lines (Py.universal_newlines content))))
        | None => None
        end
  end.

End TiasPdfSpider.

(** ** Sample pages *)

Module Samples.
Import Scrapy.

(** [urljoin] for a page of the site and a reference that is an
    absolute path; a reference that opens a bracketed host, [//[...], is
    refused as [urljoin] refuses an invalid IPv6 host. *)
Definition root_join (base ref : pystr) : option pystr :=
  if Py.is_prefix (str "//[") ref then None
  else Some (str "https://www.state.gov" ++ ref).

(** A disk that refuses file names of more than 255 characters. *)
Definition name_limit_disk : disk := fun path _ =>
  match last (Py.split "/" path) with
  | Some name => bool_decide (length name <= 255)
  | None => true
  end.

Definition years : list pystr := [str "2019"; str "2020"; str "2021"].

(** An index page whose result list holds two anchors. *)
Definition index_page : response := {|
  url := str "https://www.state.gov/2020-TIAS/?results=200";
  status := 200;
  headers := [];
  text := str "<ul class='collection-results'><li><a class='collection-result__link' href='/10-413'>A</a></li><li><a class='collection-result__link' href='/argentina-97-826'>B</a></li></ul>";
  css := fun q =>
    if bool_decide (q = TiasLinksSpider.result_link_selector)
    then [str "/10-413"; str "/argentina-97-826"]
    else if bool_decide (q = str "a::attr(href)")
    then [str "/10-413"; str "/argentina-97-826"]
    else [];
  xpath := fun _ => []
|}.

(** An index page with one anchor whose [href] is empty. *)
Definition empty_href_page : response := {|
  url := str "https://www.state.gov/2020-TIAS/?results=200";
  status := 200;
  headers := [];
  text := str "<ul class='collection-results'><li><a class='collection-result__link' href=''>A</a></li></ul>";
  css := fun q =>
    if bool_decide (q = TiasLinksSpider.result_link_selector) then [[]]
    else if bool_decide (q = str "a::attr(href)") then [[]]
    else [];
  xpath := fun _ => []
|}.

(** A page answered with status 403. *)
Definition blocked_page : response := {|
  url := str "https://www.state.gov/2020-TIAS/?results=200";
  status := 403;
  headers := [];
  text := str "<html><body>Access Denied</body></html>";
  css := fun _ => [];
  xpath := fun _ => []
|}.

(** A detail page: a headline, one paragraph, the download button and
    two more anchors to the same second document. *)
Definition detail_page : response := {|
  url := str "https://www.state.gov/12-345/";
  status := 200;
  headers := [];
  text :=
    str "<h1 " ++ Patterns.headline_open ++ str "Agreement on Trade</h1>"
    ++ str "<p>Entered into force <b>12-345</b></p>"
    ++ str "<a class='button--download' href='/docs/a.pdf'>TIAS 12-345</a>"
    ++ str "<a href='/docs/b.pdf'>b</a><a href='/docs/b.pdf'>b</a>";
  css := fun q =>
    if bool_decide (q = TiasPdfSpider.headline_selector)
    then [str "Agreement on Trade"]
    else if bool_decide (q = TiasPdfSpider.pdf_anchor (str "text"))
    then [str "TIAS 12-345"; str "b"; str "b"]
    else if bool_decide (q = str "a.button--download::attr(href)")
    then [str "/docs/a.pdf"]
    else if bool_decide (q = TiasPdfSpider.pdf_anchor (str "attr(href)"))
    then [str "/docs/a.pdf"; str "/docs/b.pdf"; str "/docs/b.pdf"]
    else [];
  xpath := fun q =>
    if bool_decide (q = str "//p//text()")
    then [str "Entered into force "; str "12-345"]
    else []
|}.

(** An index page with a parenthesised link given twice, a parenthesised
    link of another shape, and a result list with a repeated href, an
    empty href and the href of a year page. *)
Definition rich_index_page : response := {|
  url := str "https://www.state.gov/2020-TIAS/?results=200";
  status := 200;
  headers := [];
  text := str "[A](https://www.state.gov/12-345) [A](https://www.state.gov/12-345) [B](https://www.state.gov/about-us)";
  css := fun q =>
    if bool_decide (q = TiasLinksSpider.result_link_selector)
    then [ str "/10-413"; []; str "/Treaties-and-Agreements/2020";
           str "/10-413" ]
    else [];
  xpath := fun _ => []
|}.

(** An index page whose debug file would have a name of 309 characters. *)
Definition long_name_page : response := {|
  url := str "https://www.state.gov/" ++ replicate 300 "a"%char
         ++ str "-TIAS/?results=200";
  status := 200;
  headers := [];
  text := str "<html></html>";
  css := fun q =>
    if bool_decide (q = TiasLinksSpider.result_link_selector)
    then [str "/10-413"] else [];
  xpath := fun _ => []
|}.

(** A detail page whose headline the raw-markup pattern misses (the
    classes stand in another order) and the selector finds. *)
Definition selector_title_page : response := {|
  url := str "https://www.state.gov/10-413";
  status := 200;
  headers := [];
  text := str "<h1 class='stars-above featured-content__headline'> Agreement on Fisheries </h1>";
  css := fun q =>
    if bool_decide (q = TiasPdfSpider.headline_selector)
    then [" "%char :: str "Agreement on Fisheries" ++ [" "; "010"]%char;
          str "second"]
    else [];
  xpath := fun _ => []
|}.

(** A detail page whose headline is laid out over several lines. *)
Definition multiline_title_page : response := {|
  url := str "https://www.state.gov/12-345/";
  status := 200;
  headers := [];
  text := str "<h1 " ++ Patterns.headline_open
          ++ ["010"; "009"; " "]%char ++ str "Agreement"
          ++ ["010"; "009"]%char ++ str " on Trade"
          ++ ["010"; " "]%char ++ str "</h1>";
  css := fun q =>
    if bool_decide (q = TiasPdfSpider.headline_selector)
    then [str "from the selector"]
    else [];
  xpath := fun _ => []
|}.

(** A detail page with the download button and three more PDF anchors:
    one to the primary document, one whose address goes on after the
    primary address, one whose address holds a comma and a blank. *)
Definition nested_pdf_page : response := {|
  url := str "https://www.state.gov/12-345/";
  status := 200;
  headers := [];
  text := str "<a class='button--download' href='/docs/a.pdf'>a</a>";
  css := fun q =>
    if bool_decide (q = str "a.button--download::attr(href)")
    then [str "/docs/a.pdf"]
    else if bool_decide (q = TiasPdfSpider.pdf_anchor (str "attr(href)"))
    then [ str "/docs/a.pdf"; str "/docs/a.pdf/annex.pdf";
           str "/x.pdf, https://www.state.gov/docs/a.pdf" ]
    else [];
  xpath := fun _ => []
|}.

(** A detail page with a PDF anchor whose reference [urljoin] refuses. *)
Definition bad_href_page : response := {|
  url := str "https://www.state.gov/12-345/";
  status := 200;
  headers := [];
  text := str "<a href='//[x.pdf'>x</a>";
  css := fun q =>
    if bool_decide (q = TiasPdfSpider.pdf_anchor (str "attr(href)"))
    then [str "//[x.pdf"]
    else [];
  xpath := fun _ => []
|}.

End Samples.

(** * Properties *)

Import Scrapy.

(** ** Lists, sets and strings *)

Lemma elem_of_List_filter {A} (f : A -> bool) (l : list A) (x : A) :
  x ∈ List.filter f l ↔ x ∈ l ∧ f x = true.
Proof. rewrite !list_elem_of_In. apply filter_In. Qed.

Lemma sublist_List_filter {A} (f : A -> bool) (l : list A) :
  List.filter f l `sublist_of` l.
Proof.
  induction l as [|x l IH]; simpl; [constructor|].
  destruct (f x); [by apply sublist_skip | by apply sublist_cons].
Qed.

Lemma split_nonempty c s : Py.split c s ≠ [].
Proof.
  destruct s as [|a r]; simpl; [done|].
  destruct (Ascii.eqb a c); [done|]. by destruct (Py.split c r).
Qed.

Lemma split_length_slash c s : c ∈ s → 2 <= length (Py.split c s).
Proof.
  induction s as [|a r IH]; intros Hin; [by apply elem_of_nil in Hin|].
  simpl. destruct (Ascii.eqb_spec a c) as [->|Hne].
  - pose proof (split_nonempty c r). destruct (Py.split c r); simpl; [done|lia].
  - apply elem_of_cons in Hin as [->|Hin]; [done|].
    specialize (IH Hin). destruct (Py.split c r); simpl in *; lia.
Qed.

Lemma index_from_end_is_Some {A} (k : nat) (l : list A) :
  1 <= k <= length l → is_Some (Py.index_from_end k l).
Proof.
  intros Hk. unfold Py.index_from_end. rewrite decide_True by done.
  apply lookup_lt_is_Some. lia.
Qed.

Lemma url_segment_exists (u : pystr) :
  "/"%char ∈ u → is_Some (Py.index_from_end 2 (Py.split "/" u)).
Proof.
  intros Hin. apply index_from_end_is_Some.
  pose proof (split_length_slash _ _ Hin). lia.
Qed.

(** ** The index crawler *)

Lemma links_items_yielded (l : list pystr) :
  omap (@yielded TiasLinksSpider.item)
    (flat_map
       (fun link =>
          [ log_at DEBUG [FLit (str "Yielding link: "); FStr link];
            Yield {| TiasLinksSpider.URL := link |} ]) l)
  = map TiasLinksSpider.Build_item l.
Proof.
  induction l as [|x l IH]; [done|].
  cbn [flat_map]. by rewrite omap_app, IH.
Qed.

(** The parse step ends without an exception exactly when the URL has a
    last-but-one piece and the debug file of that name is written. *)
Lemma links_parse_completes d r :
  raised (TiasLinksSpider.parse d r) = None
  ↔ ∃ segment,
      Py.index_from_end 2 (Py.split "/" (url r)) = Some segment
      ∧ write_file d (TiasLinksSpider.html_file segment) (text r) = None.
Proof.
  unfold TiasLinksSpider.parse.
  destruct (Py.index_from_end _ _) as [seg|]; cbn [raised].
  - destruct (write_file _ _ _) as [e|] eqn:E; cbn [raised]; split.
    + done.
    + intros (seg' & [= <-] & Hw). congruence.
    + intros _. by exists seg.
    + done.
  - split; [done|]. by intros (seg & Hseg & _).
Qed.

Lemma links_parse_trace d r segment :
  Py.index_from_end 2 (Py.split "/" (url r)) = Some segment →
  write_file d (TiasLinksSpider.html_file segment) (text r) = None →
  TiasLinksSpider.parse d r
  = {| trace :=
         TiasLinksSpider.opening_log r ++ TiasLinksSpider.save_html r segment
         ++ (if blocked r then [TiasLinksSpider.blocked_log r]
             else TiasLinksSpider.extract r);
       raised := None |}.
Proof. intros Hseg Hw. unfold TiasLinksSpider.parse. by rewrite Hseg, Hw. Qed.

Lemma links_parse_items d r :
  raised (TiasLinksSpider.parse d r) = None →
  blocked r = false →
  items (TiasLinksSpider.parse d r)
  = map TiasLinksSpider.Build_item (TiasLinksSpider.agreement_links r).
Proof.
  intros (seg & Hseg & Hw)%links_parse_completes Hb.
  rewrite (links_parse_trace _ _ _ Hseg Hw), Hb. unfold items. cbn [trace].
  unfold TiasLinksSpider.extract.
  rewrite !omap_app, links_items_yielded. done.
Qed.

Lemma links_parse_urls d r :
  raised (TiasLinksSpider.parse d r) = None →
  blocked r = false →
  TiasLinksSpider.URL <$> items (TiasLinksSpider.parse d r)
  = TiasLinksSpider.agreement_links r.
Proof.
  intros Hr Hb. rewrite (links_parse_items _ _ Hr Hb).
  induction (TiasLinksSpider.agreement_links r) as [|x l IH]; [done|].
  simpl. f_equal. apply IH.
Qed.

Lemma elem_of_links r x :
  x ∈ TiasLinksSpider.links r
  ↔ x ∈ css r TiasLinksSpider.result_link_selector.
Proof.
  unfold TiasLinksSpider.links.
  by rewrite elem_of_elements, elem_of_list_to_set.
Qed.

Lemma elem_of_agreement_links r x :
  x ∈ TiasLinksSpider.agreement_links r
  ↔ x ∈ TiasLinksSpider.valid_markdown_links r
    ∨ (x ∈ css r TiasLinksSpider.result_link_selector
       ∧ TiasLinksSpider.kept x = true).
Proof.
  unfold TiasLinksSpider.agreement_links.
  rewrite elem_of_elements, elem_of_list_to_set, elem_of_app.
  by rewrite elem_of_List_filter, elem_of_links.
Qed.

Lemma NoDup_agreement_links r : NoDup (TiasLinksSpider.agreement_links r).
Proof. unfold TiasLinksSpider.agreement_links. apply NoDup_elements. Qed.

(** ** Seed resolution of the index crawler *)

Lemma slice_to_length {A} (n : Z) (l : list A) :
  (0 <= n)%Z → length (Py.slice_to n l) = Nat.min (Z.to_nat n) (length l).
Proof.
  intros Hn. unfold Py.slice_to.
  destruct (Z.leb_spec 0 n); [|lia]. by rewrite length_take.
Qed.

Lemma slice_to_all {A} (n : Z) (l : list A) :
  (Z.of_nat (length l) <= n)%Z → Py.slice_to n l = l.
Proof.
  intros Hn. unfold Py.slice_to.
  destruct (Z.leb_spec 0 n); [|lia]. apply take_ge. lia.
Qed.

Lemma int_Some_truthy a n :
  TiasLinksSpider.int a = Some n → n ≠ 0%Z →
  TiasLinksSpider.truthy (Some a) = true.
Proof.
  destruct a as [s|z]; simpl.
  - intros Hs _. destruct s; [discriminate Hs | done].
  - intros [= ->] Hn. by destruct (Z.eqb_spec n 0).
Qed.

Lemma init_with_limit years a n :
  TiasLinksSpider.int a = Some n → n ≠ 0%Z →
  TiasLinksSpider.year_urls (TiasLinksSpider.init years (Some a)).1
  = Py.slice_to n (map TiasLinksSpider.year_url years).
Proof.
  intros Ha Hn. unfold TiasLinksSpider.init.
  by rewrite (int_Some_truthy _ _ Ha Hn), Ha.
Qed.

Lemma start_requests_urls sp :
  map req_url (TiasLinksSpider.start_requests sp) = TiasLinksSpider.year_urls sp.
Proof.
  unfold TiasLinksSpider.start_requests.
  induction (TiasLinksSpider.year_urls sp) as [|u l IH]; [done|].
  simpl. by rewrite IH.
Qed.

Lemma start_requests_length sp :
  length (TiasLinksSpider.start_requests sp)
  = length (TiasLinksSpider.year_urls sp).
Proof. unfold TiasLinksSpider.start_requests. by rewrite length_map. Qed.

(** C5. A year limit that parses as a positive integer [n] no larger
    than the number of years makes a seed list of exactly [n] URLs (the
    first [n] of the list) and exactly [n] requests; a limit that parses
    as an integer larger than the number of years, and no limit at all,
    give one request per year. *)
Theorem year_limit_requests (years : list pystr) :
  (∀ a n,
     TiasLinksSpider.int a = Some n →
     (0 < n <= Z.of_nat (length years))%Z →
     let sp := (TiasLinksSpider.init years (Some a)).1 in
     length (TiasLinksSpider.year_urls sp) = Z.to_nat n
     ∧ length (TiasLinksSpider.start_requests sp) = Z.to_nat n
     ∧ map req_url (TiasLinksSpider.start_requests sp)
       = take (Z.to_nat n) (map TiasLinksSpider.year_url years))
  ∧ (∀ a n,
       TiasLinksSpider.int a = Some n →
       (Z.of_nat (length years) < n)%Z →
       map req_url
         (TiasLinksSpider.start_requests (TiasLinksSpider.init years (Some a)).1)
       = map TiasLinksSpider.year_url years)
  ∧ map req_url
      (TiasLinksSpider.start_requests (TiasLinksSpider.init years None).1)
    = map TiasLinksSpider.year_url years.
Proof.
  split_and!.
  - intros a n Ha Hn sp. subst sp.
    rewrite start_requests_length, start_requests_urls.
    rewrite (init_with_limit _ _ _ Ha) by lia.
    rewrite slice_to_length by lia. rewrite length_map.
    split_and!; [lia | lia |].
    unfold Py.slice_to. by destruct (Z.leb_spec 0 n); [|lia].
  - intros a n Ha Hn. rewrite start_requests_urls.
    rewrite (init_with_limit _ _ _ Ha) by lia.
    apply slice_to_all. rewrite length_map. lia.
  - by rewrite start_requests_urls.
Qed.

Lemma year_limit_requests_witness :
  let sp :=
    (TiasLinksSpider.init Samples.years
       (Some (TiasLinksSpider.AStr (str "2")))).1 in
  length (TiasLinksSpider.year_urls sp) = 2
  ∧ length (TiasLinksSpider.start_requests sp) = 2
  ∧ map req_url (TiasLinksSpider.start_requests sp)
    = take 2 (map TiasLinksSpider.year_url Samples.years).
Proof.
  apply (proj1 (year_limit_requests Samples.years)
           (TiasLinksSpider.AStr (str "2")) 2%Z).
  - reflexivity.
  - change (0 < 2 <= 3)%Z. lia.
Defined.

(** C6 (as the code has it). A year limit that is supplied (a non-empty
    string) and does not parse as an integer makes the crawler log one
    warning that shows the value and keep the full list of years. *)
Theorem invalid_year_limit_falls_back (years : list pystr) a :
  TiasLinksSpider.truthy (Some a) = true →
  TiasLinksSpider.int a = None →
  let '(sp, events) := TiasLinksSpider.init years (Some a) in
  TiasLinksSpider.year_urls sp = map TiasLinksSpider.year_url years
  ∧ omap (fun e => match e with
                   | Log WARNING m => Some m
                   | _ => None
                   end) events
    = [ [FLit (str "Invalid max_years: "); TiasLinksSpider.shown a;
         FLit (str ", processing all years")] ].
Proof.
  intros Ht Ha. unfold TiasLinksSpider.init. rewrite Ht, Ha. done.
Qed.

Lemma invalid_year_limit_falls_back_witness :
  let '(sp, events) :=
    TiasLinksSpider.init Samples.years
      (Some (TiasLinksSpider.AStr (str "three"))) in
  TiasLinksSpider.year_urls sp = map TiasLinksSpider.year_url Samples.years
  ∧ omap (fun e => match e with
                   | Log WARNING m => Some m
                   | _ => None
                   end) events
    = [ [FLit (str "Invalid max_years: ");
         TiasLinksSpider.shown (TiasLinksSpider.AStr (str "three"));
         FLit (str ", processing all years")] ].
Proof.
  apply (invalid_year_limit_falls_back Samples.years
           (TiasLinksSpider.AStr (str "three"))); reflexivity.
Defined.

(** C6, as stated, fails for limits that parse as zero or as a negative
    integer: ["0"] empties the list of years and ["-1"] drops its last
    year, and neither logs a warning. *)
Lemma nonpositive_year_limit_truncates :
  let all := map TiasLinksSpider.year_url Samples.years in
  let zero := TiasLinksSpider.init Samples.years
                (Some (TiasLinksSpider.AStr (str "0"))) in
  let minus := TiasLinksSpider.init Samples.years
                 (Some (TiasLinksSpider.AStr (str "-1"))) in
  TiasLinksSpider.int (TiasLinksSpider.AStr (str "0")) = Some 0%Z
  ∧ TiasLinksSpider.int (TiasLinksSpider.AStr (str "-1")) = Some (-1)%Z
  ∧ TiasLinksSpider.year_urls zero.1 = []
  ∧ TiasLinksSpider.year_urls minus.1 = take 2 all
  ∧ TiasLinksSpider.year_urls zero.1 ≠ all
  ∧ TiasLinksSpider.year_urls minus.1 ≠ all
  ∧ Forall (fun e => log_level e ≠ Some WARNING) zero.2
  ∧ Forall (fun e => log_level e ≠ Some WARNING) minus.2.
Proof.
  cbv zeta. split_and!; try (by vm_compute).
  - vm_compute. repeat constructor; discriminate.
  - vm_compute. repeat constructor; discriminate.
Qed.

(** ** The detail extractor *)

Lemma pdf_parse_items urljoin r :
  items (TiasPdfSpider.parse urljoin r)
  = if blocked r then []
    else match TiasPdfSpider.record urljoin r with
         | Some it => [it]
         | None => []
         end.
Proof.
  unfold TiasPdfSpider.parse, TiasPdfSpider.record, TiasPdfSpider.extract.
  destruct (blocked r); [done|]. unfold items. cbn [trace].
  destruct (TiasPdfSpider.extract_primary_pdf urljoin r) as [primary|];
    [|done].
  destruct (TiasPdfSpider.all_pdf_links urljoin r) as [links|]; [|done].
  cbn [trace]. by rewrite !omap_app.
Qed.

(** An emitted record is the one made of the two results of [urljoin]. *)
Lemma pdf_items_inv urljoin r it :
  it ∈ items (TiasPdfSpider.parse urljoin r) →
  ∃ primary links,
    it = TiasPdfSpider.make_record r primary links
    ∧ blocked r = false
    ∧ TiasPdfSpider.extract_primary_pdf urljoin r = Some primary
    ∧ TiasPdfSpider.all_pdf_links urljoin r = Some links
    ∧ items (TiasPdfSpider.parse urljoin r) = [it].
Proof.
  rewrite pdf_parse_items. unfold TiasPdfSpider.record.
  destruct (blocked r); [by intros ?%elem_of_nil|].
  destruct (TiasPdfSpider.extract_primary_pdf urljoin r) as [primary|];
    [|by intros ?%elem_of_nil].
  destruct (TiasPdfSpider.all_pdf_links urljoin r) as [links|];
    [|by intros ?%elem_of_nil].
  intros ->%list_elem_of_singleton. by exists primary, links.
Qed.

Lemma pdf_blocked_logs_no_error urljoin r :
  blocked r = true →
  logged ERROR (TiasPdfSpider.parse urljoin r) = []
  ∧ last (trace (TiasPdfSpider.parse urljoin r))
    = Some (Log DEBUG [FLit (str "Blocked or forbidden response for ");
                       FStr (url r)]).
Proof.
  intros Hb. unfold TiasPdfSpider.parse, logged. by rewrite Hb.
Qed.

Lemma links_blocked_logs_one_error d r :
  raised (TiasLinksSpider.parse d r) = None → blocked r = true →
  items (TiasLinksSpider.parse d r) = []
  ∧ logged ERROR (TiasLinksSpider.parse d r)
    = [[FLit (str "Blocked or forbidden response for "); FStr (url r)]].
Proof.
  intros (seg & Hseg & Hw)%links_parse_completes Hb.
  rewrite (links_parse_trace _ _ _ Hseg Hw), Hb. done.
Qed.

(** C3 fails in the detail extractor. On the sample page answered with
    status 403 both spiders emit no record, and the index crawler logs
    one error-level line that shows the URL; the detail extractor logs
    its line through [Spider.log] without a level, so at the default
    level DEBUG, and logs nothing at error level. *)
Theorem blocked_detail_page_logs_at_debug :
  let r := Samples.blocked_page in
  let blocked_line :=
    [FLit (str "Blocked or forbidden response for "); FStr (url r)] in
  blocked r = true
  ∧ items (TiasLinksSpider.parse Samples.name_limit_disk r) = []
  ∧ logged ERROR (TiasLinksSpider.parse Samples.name_limit_disk r)
    = [blocked_line]
  ∧ items (TiasPdfSpider.parse Samples.root_join r) = []
  ∧ logged ERROR (TiasPdfSpider.parse Samples.root_join r) = []
  ∧ last (trace (TiasPdfSpider.parse Samples.root_join r))
    = Some (Log DEBUG blocked_line).
Proof.
  cbv zeta.
  assert (Hb : blocked Samples.blocked_page = true) by (by vm_compute).
  assert (Hr : raised (TiasLinksSpider.parse Samples.name_limit_disk
                         Samples.blocked_page) = None) by (by vm_compute).
  destruct (links_blocked_logs_one_error _ _ Hr Hb) as [? ?].
  destruct (pdf_blocked_logs_no_error Samples.root_join _ Hb) as [? ?].
  split_and!; [done..|by rewrite pdf_parse_items, Hb|done|done].
Qed.

Lemma count_List_filter (f : pystr -> bool) (x : pystr) (l : list pystr) :
  Py.count x (List.filter f l) = if f x then Py.count x l else 0.
Proof.
  unfold Py.count. induction l as [|y l IH]; simpl; [by destruct (f x)|].
  destruct (f y) eqn:Hy; simpl; case_bool_decide as Hxy; simpl;
    rewrite ?IH; try done.
  - subst y. by rewrite Hy.
  - subst y. by rewrite Hy in IH |- *.
Qed.

Lemma not_elem_of_remove_char c s : c ∉ Py.remove_char c s.
Proof. unfold Py.remove_char. rewrite list_elem_of_filter. by intros [? _]. Qed.

Lemma elem_of_remove_char a c s : a ∈ Py.remove_char c s → a ∈ s.
Proof. unfold Py.remove_char. rewrite list_elem_of_filter. by intros [_ ?]. Qed.

Lemma pattern_title_no_newline_tab r :
  ("010"%char ∉ TiasPdfSpider.pattern_title r)
  ∧ ("009"%char ∉ TiasPdfSpider.pattern_title r).
Proof.
  unfold TiasPdfSpider.pattern_title.
  destruct (Re.search _ _) as [g|]; [|split; apply not_elem_of_nil].
  split; [|apply not_elem_of_remove_char].
  intros Hin%elem_of_remove_char. by apply not_elem_of_remove_char in Hin.
Qed.

Lemma lit_Some {R} (w : pystr) (k : @Re.cont R) prev n s x :
  Re.lit w k prev n s = Some x →
  ∃ prev' rest, s = w ++ rest ∧ k prev' (n + length w) rest = Some x.
Proof.
  revert prev n s. induction w as [|c w IH]; intros prev n s H.
  - exists prev, s. by rewrite Nat.add_0_r.
  - cbn [Re.lit] in H. unfold Re.chr, Re.cls in H.
    destruct s as [|a s]; [done|].
    destruct (Ascii.eqb_spec c a) as [<-|]; [|done].
    apply IH in H as (prev' & rest & -> & H). exists prev', rest.
    split; [done|]. by rewrite <- H, length_cons, Nat.add_succ_r.
Qed.

Lemma search_from_Some p prev s g :
  Re.search_from p prev s = Some g →
  ∃ before prev' here sp,
    s = before ++ here ∧ p prev' here = Some sp ∧ g = Re.group1 sp here.
Proof.
  revert prev. induction s as [|c s IH]; intros prev; cbn [Re.search_from].
  - destruct (p prev []) as [sp|] eqn:E; [|done].
    intros [= <-]. by exists [], prev, [], sp.
  - destruct (p prev (c :: s)) as [sp|] eqn:E.
    + intros [= <-]. by exists [], prev, (c :: s), sp.
    + intros (before & prev' & here & sp & -> & H & ->)%IH.
      by exists (c :: before), prev', here, sp.
Qed.

Lemma is_prefix_refl_app w rest : Py.is_prefix w (w ++ rest) = true.
Proof.
  induction w as [|c w IH]; [done|]. simpl.
  by rewrite Ascii.eqb_refl, IH.
Qed.

Lemma contains_app before w rest :
  Py.contains w (before ++ w ++ rest) = true.
Proof.
  induction before as [|c before IH].
  - destruct (w ++ rest) eqn:E; simpl; rewrite <- E, is_prefix_refl_app; done.
  - cbn [app Py.contains]. rewrite IH. apply orb_true_r.
Qed.

(** The headline pattern matches only markup that has the opening of the
    headline class. *)
Lemma title_pattern_needs_headline t g :
  Re.search Patterns.title_pattern t = Some g →
  Py.contains Patterns.headline_open t = true.
Proof.
  intros (before & prev' & here & sp & -> & H & _)%search_from_Some.
  unfold Patterns.title_pattern in H.
  apply lit_Some in H as (_ & rest & -> & _). apply contains_app.
Qed.

(** The pattern tolerates blanks, newlines and tabs around and inside
    the headline. *)
Example pattern_title_strips_newlines_and_tabs :
  TiasPdfSpider.pattern_title
    {| url := str "https://www.state.gov/12-345/"; status := 200;
       headers := []; css := fun _ => []; xpath := fun _ => [];
       text := str "<h1 " ++ Patterns.headline_open
               ++ ["010"; "009"; " "]%char ++ str "Agreement"
               ++ ["010"; "009"]%char ++ str " on Trade"
               ++ ["010"; " "]%char ++ str "</h1>" |}
  = str "Agreement on Trade".
Proof. by vm_compute. Qed.

(** ** The agreement-code pattern over joined paragraphs *)

Section Locality.
Import Re.

Lemma stops_at_bar_accept : stops_at_bar accept.
Proof. done. Qed.

Lemma stops_at_bar_word_boundary k :
  stops_at_bar k → stops_at_bar (word_boundary k).
Proof.
  intros Hk prev n u v. unfold word_boundary. rewrite Hk.
  by destruct u.
Qed.

Lemma rejects_cls p c k : p c = false → rejects c (cls p k).
Proof. intros Hp prev n w. unfold cls. by rewrite Hp. Qed.

Lemma stops_at_bar_cls p k :
  p " "%char = false ∨ rejects "|" k →
  stops_at_bar k → stops_at_bar (cls p k).
Proof.
  intros Hp Hk prev n [|c u] v; unfold cls; simpl.
  - destruct Hp as [->|Hr]; [done|]. rewrite Hr. by destruct (p " "%char).
  - by rewrite Hk.
Qed.

Lemma stops_at_bar_opt (m : cont → cont) k :
  stops_at_bar (m k) → stops_at_bar k → stops_at_bar (opt m k).
Proof. intros Hm Hk prev n u v. unfold opt. by rewrite Hm, Hk. Qed.

Lemma in_bounds_accept : in_bounds accept.
Proof. intros prev n s sp [= <-]. simpl. lia. Qed.

Lemma in_bounds_word_boundary k : in_bounds k → in_bounds (word_boundary k).
Proof.
  intros Hk prev n s sp. unfold word_boundary.
  destruct (xorb _ _); [apply Hk | done].
Qed.

Lemma in_bounds_cls p k : in_bounds k → in_bounds (cls p k).
Proof.
  intros Hk prev n [|c s] sp; unfold cls; [done|].
  destruct (p c); [|done]. intros H%Hk. simpl. lia.
Qed.

Lemma in_bounds_opt (m : cont → cont) k :
  in_bounds (m k) → in_bounds k → in_bounds (opt m k).
Proof.
  intros Hm Hk prev n s sp. unfold opt.
  destruct (m k prev n s) eqn:E; [intros [= <-]; by apply Hm in E | apply Hk].
Qed.

End Locality.

Lemma is_digit_blank : Char.is_digit " " = false.
Proof. reflexivity. Qed.

Lemma is_digit_bar : Char.is_digit "|" = false.
Proof. reflexivity. Qed.

(** An attempt of the code pattern reads nothing of a following [" | "]. *)
Lemma code_pattern_stops_at_bar prev u v :
  Patterns.code_pattern prev (u ++ " "%char :: "|"%char :: v)
  = Patterns.code_pattern prev u.
Proof.
  unfold Patterns.code_pattern. cbn [Re.times Re.upto].
  apply stops_at_bar_word_boundary.
  do 2 (apply stops_at_bar_cls; [left; apply is_digit_blank|]).
  assert (Hrest : Re.stops_at_bar
            (Re.cls Char.is_digit (Re.cls Char.is_digit (Re.cls Char.is_digit
               (Re.opt (fun k' => Re.cls Char.is_digit k')
                  (Re.word_boundary Re.accept)))))).
  { do 3 (apply stops_at_bar_cls; [left; apply is_digit_blank|]).
    apply stops_at_bar_opt.
    - apply stops_at_bar_cls; [left; apply is_digit_blank|].
      apply stops_at_bar_word_boundary, stops_at_bar_accept.
    - apply stops_at_bar_word_boundary, stops_at_bar_accept. }
  apply stops_at_bar_opt; [|exact Hrest].
  apply stops_at_bar_cls; [|exact Hrest].
  right. apply rejects_cls, is_digit_bar.
Qed.

(** A match of the code pattern ends within the input. *)
Lemma code_pattern_in_bounds prev s sp :
  Patterns.code_pattern prev s = Some sp →
  Re.m_end sp <= length s ∧ Re.g_start sp = 0 ∧ Re.g_end sp = Re.m_end sp.
Proof.
  unfold Patterns.code_pattern. cbn [Re.times Re.upto]. intros H.
  match type of H with
  | ?k prev 0 s = _ => assert (Hk : Re.in_bounds k)
  end.
  { repeat first
      [ apply in_bounds_cls
      | apply in_bounds_opt
      | apply in_bounds_word_boundary
      | apply in_bounds_accept ]. }
  apply Hk in H. simpl in H. lia.
Qed.

(** The character before an attempt matters only as a word character. *)
Lemma code_pattern_prev p1 p2 s :
  Char.is_word_opt p1 = Char.is_word_opt p2 →
  Patterns.code_pattern p1 s = Patterns.code_pattern p2 s.
Proof.
  intros H. unfold Patterns.code_pattern, Re.word_boundary at 1 3.
  rewrite H. destruct (xorb _ _); [|done].
  cbn [Re.times]. destruct s as [|c s]; [done|]. reflexivity.
Qed.

Lemma code_pattern_nil prev : Patterns.code_pattern prev [] = None.
Proof.
  unfold Patterns.code_pattern, Re.word_boundary at 1.
  by destruct (xorb _ _).
Qed.

Lemma code_pattern_head prev c s :
  Char.is_digit c = false → Patterns.code_pattern prev (c :: s) = None.
Proof.
  intros Hc. unfold Patterns.code_pattern, Re.word_boundary at 1.
  destruct (xorb _ _); [|done]. cbn [Re.times]. unfold Re.cls at 1.
  by rewrite Hc.
Qed.

Section FindallEquations.
Variable p : Re.pattern.

Lemma findall_from_nil prev skip :
  p prev [] = None → Re.findall_from p prev skip [] = [].
Proof. intros H. simpl. rewrite H. by destruct skip. Qed.

Lemma findall_from_skip prev k c r :
  Re.findall_from p prev (S k) (c :: r) = Re.findall_from p (Some c) k r.
Proof. reflexivity. Qed.

Lemma findall_from_match prev c r sp :
  p prev (c :: r) = Some sp →
  Re.findall_from p prev 0 (c :: r)
  = Re.group1 sp (c :: r) :: Re.findall_from p (Some c) (pred (Re.m_end sp)) r.
Proof. intros H. simpl. by rewrite H. Qed.

Lemma findall_from_no_match prev c r :
  p prev (c :: r) = None →
  Re.findall_from p prev 0 (c :: r) = Re.findall_from p (Some c) 0 r.
Proof. intros H. simpl. by rewrite H. Qed.
End FindallEquations.

Lemma findall_code_prev p1 p2 skip s :
  Char.is_word_opt p1 = Char.is_word_opt p2 →
  Re.findall_from Patterns.code_pattern p1 skip s
  = Re.findall_from Patterns.code_pattern p2 skip s.
Proof.
  intros H. destruct s as [|c r].
  - by rewrite !findall_from_nil by apply code_pattern_nil.
  - destruct skip as [|k]; [|done].
    simpl. by rewrite (code_pattern_prev p1 p2 _ H).
Qed.

(** Scanning a text followed by [" | "] and more text lists the matches
    of the first text, then those of the rest. *)
Lemma findall_code_app prev skip u v :
  skip <= length u →
  Re.findall_from Patterns.code_pattern prev skip (u ++ str " | " ++ v)
  = Re.findall_from Patterns.code_pattern prev skip u
    ++ Re.findall_from Patterns.code_pattern None 0 v.
Proof.
  change (str " | " ++ v) with (" "%char :: "|"%char :: " "%char :: v).
  revert prev skip. induction u as [|c u IH]; intros prev skip Hskip.
  - simpl in Hskip. assert (skip = 0) as -> by lia.
    rewrite (findall_from_nil _ _ _ (code_pattern_nil prev)).
    cbn [app].
    rewrite findall_from_no_match by (by apply code_pattern_head).
    rewrite findall_from_no_match by (by apply code_pattern_head).
    destruct v as [|a v].
    + by rewrite findall_from_no_match, !findall_from_nil
        by first [apply code_pattern_nil | by apply code_pattern_head].
    + rewrite findall_from_no_match by (by apply code_pattern_head).
      by apply findall_code_prev.
  - destruct skip as [|k].
    + change ((c :: u) ++ " "%char :: "|"%char :: " "%char :: v)
        with (c :: (u ++ " "%char :: "|"%char :: " "%char :: v)).
      pose proof (code_pattern_stops_at_bar prev (c :: u) (" "%char :: v)) as Hloc.
      change ((c :: u) ++ " "%char :: "|"%char :: " "%char :: v)
        with (c :: (u ++ " "%char :: "|"%char :: " "%char :: v)) in Hloc.
      destruct (Patterns.code_pattern prev (c :: u)) as [sp|] eqn:E.
      * destruct (code_pattern_in_bounds _ _ _ E) as (Hend & Hs & He).
        rewrite (findall_from_match _ _ _ _ _ Hloc).
        rewrite (findall_from_match _ _ _ _ _ E).
        rewrite IH by (simpl in Hend; lia).
        cbn [app]. f_equal. unfold Re.group1, Re.slice.
        rewrite Hs, He, !drop_0, Nat.sub_0_r.
        change (c :: u ++ " "%char :: "|"%char :: " "%char :: v)
          with ((c :: u) ++ " "%char :: "|"%char :: " "%char :: v).
        by rewrite take_app_le.
      * rewrite (findall_from_no_match _ _ _ _ Hloc).
        rewrite (findall_from_no_match _ _ _ _ E).
        apply IH. lia.
    + cbn [app]. rewrite !findall_from_skip. apply IH. simpl in Hskip. lia.
Qed.

(** The matches in the joined paragraphs are the matches in each
    paragraph, in order. *)
Lemma findall_code_join (ps : list pystr) :
  Re.findall Patterns.code_pattern (Py.join (str " | ") ps)
  = flat_map (Re.findall Patterns.code_pattern) ps.
Proof.
  unfold Re.findall. induction ps as [|p ps IH].
  - by apply findall_from_nil, code_pattern_nil.
  - destruct ps as [|q ps].
    + simpl. by rewrite app_nil_r.
    + change (Py.join (str " | ") (p :: q :: ps))
        with (p ++ str " | " ++ Py.join (str " | ") (q :: ps)).
      rewrite findall_code_app by lia. by rewrite IH.
Qed.

Lemma List_filter_Permutation {A} (f : A -> bool) (l l' : list A) :
  l ≡ₚ l' → List.filter f l ≡ₚ List.filter f l'.
Proof.
  induction 1 as [|x l l' _ IH|x y l|l l' l'' _ IH1 _ IH2]; simpl.
  - done.
  - destruct (f x); [by constructor | done].
  - destruct (f x), (f y); try done. apply perm_swap.
  - by etrans.
Qed.

Lemma flat_map_Permutation {A B} (f : A -> list B) (l l' : list A) :
  l ≡ₚ l' → flat_map f l ≡ₚ flat_map f l'.
Proof.
  induction 1 as [|x l l' _ IH|x y l|l l' l'' _ IH1 _ IH2]; simpl.
  - done.
  - by apply Permutation_app_head.
  - rewrite !app_assoc. apply Permutation_app_tail, Permutation_app_comm.
  - by etrans.
Qed.

Lemma clean_paragraphs_Permutation nodes nodes' :
  nodes ≡ₚ nodes' →
  TiasPdfSpider.clean_paragraphs nodes ≡ₚ TiasPdfSpider.clean_paragraphs nodes'.
Proof.
  intros H. unfold TiasPdfSpider.clean_paragraphs.
  by apply List_filter_Permutation, Permutation_map.
Qed.

(** The pooled codes are the codes of each cleaned paragraph and of each
    link text. *)
Lemma pooled_codes_by_paragraph nodes link_texts :
  TiasPdfSpider.pooled_codes nodes link_texts
  = flat_map (Re.findall Patterns.code_pattern)
      (TiasPdfSpider.clean_paragraphs nodes)
    ++ flat_map (Re.findall Patterns.code_pattern) link_texts.
Proof.
  unfold TiasPdfSpider.pooled_codes, TiasPdfSpider.paragraphs_text.
  by rewrite findall_code_join.
Qed.

(** C7. The set of agreement codes (the matches of the code pattern in
    the joined paragraph text and in the texts of the PDF anchors, as a
    set) is the same for every reordering of the paragraph list. *)
Theorem agreement_codes_invariant_under_paragraph_order
    (nodes nodes' link_texts : list pystr) :
  nodes ≡ₚ nodes' →
  TiasPdfSpider.code_set nodes link_texts
  = TiasPdfSpider.code_set nodes' link_texts.
Proof.
  intros Hperm. unfold TiasPdfSpider.code_set.
  apply list_to_set_perm_L. rewrite !pooled_codes_by_paragraph.
  apply Permutation_app_tail, flat_map_Permutation.
  by apply clean_paragraphs_Permutation.
Qed.

Lemma agreement_codes_invariant_under_paragraph_order_witness :
  TiasPdfSpider.code_set
    [str "In force 12-345 "; str " see 67 8901"; str "12-345"]
    [str "TIAS 97-826"]
  = TiasPdfSpider.code_set
      [str "12-345"; str " see 67 8901"; str "In force 12-345 "]
      [str "TIAS 97-826"].
Proof.
  apply agreement_codes_invariant_under_paragraph_order.
  etrans; [apply perm_swap|]. etrans; [apply perm_skip, perm_swap|].
  apply perm_swap.
Defined.

(** The codes of the sample detail page. *)
Example sample_codes :
  TiasPdfSpider.extract_codes Samples.detail_page = [str "12-345"].
Proof. by vm_compute. Qed.

(** ** The links of an index page *)

Section Anchored.
Import Re.
Variable P : ascii -> Prop.

Lemma all_chars_eol_accept : P "010" → all_chars P (eol accept).
Proof.
  intros HP prev n s sp. unfold eol.
  destruct s as [|c [|c' s]]; [by constructor| |done].
  destruct (Ascii.eqb_spec c "010") as [->|]; [|done].
  intros _. by repeat constructor.
Qed.

Lemma all_chars_cls p k :
  (∀ c, p c = true → P c) → all_chars P k → all_chars P (cls p k).
Proof.
  intros Hp Hk prev n [|c s] sp; unfold cls; [done|].
  destruct (p c) eqn:Hc; [|done]. intros H%Hk. constructor; auto.
Qed.

Lemma all_chars_opt (m : cont → cont) k :
  all_chars P (m k) → all_chars P k → all_chars P (opt m k).
Proof.
  intros Hm Hk prev n s sp. unfold opt.
  destruct (m k prev n s) eqn:E; [intros _; by apply Hm in E | apply Hk].
Qed.

Lemma all_chars_lit w k :
  Forall P w → all_chars P k → all_chars P (lit w k).
Proof.
  intros Hw Hk. induction Hw as [|c w Hc _ IH]; [done|].
  cbn [lit]. apply all_chars_cls; [|done].
  by intros c' ->%Ascii.eqb_eq.
Qed.
End Anchored.

Lemma is_prefix_app needle hay :
  Py.is_prefix needle hay = true → ∃ post, hay = needle ++ post.
Proof.
  revert hay. induction needle as [|a needle IH]; intros hay; [by eexists|].
  destruct hay as [|b hay]; [done|]. simpl.
  intros [->%Ascii.eqb_eq [post ->]%IH]%andb_true_iff. by eexists.
Qed.

Lemma contains_elem_of needle hay c :
  Py.contains needle hay = true → c ∈ needle → c ∈ hay.
Proof.
  intros Hc Hin. induction hay as [|b hay IH].
  - simpl in Hc. rewrite orb_false_r in Hc.
    apply is_prefix_app in Hc as [post Hp].
    symmetry in Hp. apply app_eq_nil in Hp as [-> _]. done.
  - cbn [Py.contains] in Hc. apply orb_true_iff in Hc as [Hp|Hc].
    + apply is_prefix_app in Hp as [post ->]. apply elem_of_app. by left.
    + apply elem_of_cons. right. by apply IH.
Qed.

Lemma digit_not_r c : Char.is_digit c = true → Char.not_r c.
Proof.
  revert c. intros [[] [] [] [] [] [] [] []]; vm_compute; congruence.
Qed.

(** A link of the strict shape has no [r] or [R]. *)
Lemma agreement_url_no_r link :
  Re.matches Patterns.agreement_url_pattern link = true → Forall Char.not_r link.
Proof.
  unfold Re.matches, Patterns.agreement_url_pattern.
  destruct (Re.lit _ _ _ _ _) as [sp|] eqn:E; [intros _|done].
  revert E. cbn [Re.times Re.upto]. apply all_chars_lit.
  { unfold Patterns.site. repeat constructor; by vm_compute. }
  assert (Hdash : ∀ c, Ascii.eqb "-" c = true → Char.not_r c).
  { intros c <-%Ascii.eqb_eq. by vm_compute. }
  repeat first
    [ apply all_chars_cls; [first [exact digit_not_r | exact Hdash]|]
    | apply all_chars_opt
    | apply all_chars_eol_accept; by vm_compute ].
Qed.

(** A link of the strict shape is not empty and is never a year page. *)
Lemma agreement_url_kept link :
  Re.matches Patterns.agreement_url_pattern link = true →
  TiasLinksSpider.kept link = true.
Proof.
  intros Hm. unfold TiasLinksSpider.kept. apply andb_true_iff. split.
  - destruct link; [by vm_compute in Hm | done].
  - apply negb_true_iff. apply not_true_is_false. intros Hc.
    unfold TiasLinksSpider.is_year_page in Hc.
    assert (Hr : "r"%char ∈ Py.lower link).
    { apply (contains_elem_of _ _ _ Hc).
      apply (bool_decide_unpack _). by vm_compute. }
    unfold Py.lower in Hr.
    change (map Char.lower link) with (Char.lower <$> link) in Hr.
    apply list_elem_of_fmap in Hr as (c & Hr & Hin).
    pose proof (agreement_url_no_r _ Hm) as Hall.
    rewrite Forall_forall in Hall. by apply (Hall c Hin).
Qed.

Lemma kept_true link :
  TiasLinksSpider.kept link = true
  ↔ link ≠ [] ∧ TiasLinksSpider.is_year_page link = false.
Proof.
  unfold TiasLinksSpider.kept.
  rewrite andb_true_iff, !negb_true_iff, bool_decide_eq_false. done.
Qed.

(** * Further properties of the code *)

(** ** [strip] *)

Section Strip.
Implicit Types s : pystr.

Lemma lstrip_split s :
  ∃ pre, s = pre ++ Py.lstrip s ∧ Forall (fun c => Char.is_space c = true) pre.
Proof.
  induction s as [|c s (pre & Hs & Hpre)]; [by exists []|].
  simpl. destruct (Char.is_space c) eqn:Hc.
  - exists (c :: pre). split; [by rewrite Hs at 1|by constructor].
  - by exists [].
Qed.

Lemma lstrip_head s c : head (Py.lstrip s) = Some c → Char.is_space c = false.
Proof.
  induction s as [|a s IH]; simpl; [done|].
  destruct (Char.is_space a) eqn:Ha; [done|]. by intros [= <-].
Qed.

Lemma lstrip_clean s :
  (∀ c, head s = Some c → Char.is_space c = false) → Py.lstrip s = s.
Proof.
  destruct s as [|a s]; simpl; [done|]. intros H. by rewrite (H a).
Qed.

Lemma head_rev s : head (rev s) = last s.
Proof. rewrite rev_alt. apply head_reverse. Qed.

Lemma last_rev s : last (rev s) = head s.
Proof. rewrite rev_alt. apply last_reverse. Qed.

Lemma rstrip_split s :
  ∃ post, s = Py.rstrip s ++ post ∧ Forall (fun c => Char.is_space c = true) post.
Proof.
  unfold Py.rstrip. destruct (lstrip_split (rev s)) as (pre & Hs & Hpre).
  exists (rev pre). split.
  - rewrite <- rev_app_distr, <- Hs. by rewrite rev_involutive.
  - apply Forall_forall. intros c Hc. rewrite Forall_forall in Hpre.
    apply Hpre. apply list_elem_of_In. apply list_elem_of_In in Hc.
    by apply in_rev.
Qed.

Lemma rstrip_last s c : last (Py.rstrip s) = Some c → Char.is_space c = false.
Proof. unfold Py.rstrip. rewrite last_rev. apply lstrip_head. Qed.

Lemma rstrip_clean s :
  (∀ c, last s = Some c → Char.is_space c = false) → Py.rstrip s = s.
Proof.
  intros H. unfold Py.rstrip. rewrite lstrip_clean; [apply rev_involutive|].
  intros c. rewrite head_rev. apply H.
Qed.

(** [strip] takes blanks off both ends and nothing else. *)
Lemma strip_split s :
  ∃ pre post,
    s = pre ++ Py.strip s ++ post
    ∧ Forall (fun c => Char.is_space c = true) pre
    ∧ Forall (fun c => Char.is_space c = true) post.
Proof.
  destruct (lstrip_split s) as (pre & Hs & Hpre).
  destruct (rstrip_split (Py.lstrip s)) as (post & Ht & Hpost).
  exists pre, post. split; [|done]. unfold Py.strip. by rewrite <- Ht.
Qed.

Lemma strip_clean_ends s : Py.clean_ends (Py.strip s) = true.
Proof.
  unfold Py.strip, Py.clean_ends.
  destruct (rstrip_split (Py.lstrip s)) as (post & Ht & _).
  destruct (head (Py.rstrip (Py.lstrip s))) as [a|] eqn:Ha; [|done].
  destruct (last (Py.rstrip (Py.lstrip s))) as [b|] eqn:Hb; [|done].
  apply rstrip_last in Hb. rewrite Hb.
  assert (head (Py.lstrip s) = Some a) as Hh.
  { rewrite Ht. destruct (Py.rstrip (Py.lstrip s)); [done|]. done. }
  apply lstrip_head in Hh. by rewrite Hh.
Qed.

Lemma clean_ends_cons a s :
  Py.clean_ends (a :: s) = true →
  Char.is_space a = false
  ∧ ∃ t b, a :: s = t ++ [b] ∧ Char.is_space b = false.
Proof.
  unfold Py.clean_ends. cbn [head].
  destruct (last (a :: s)) as [b|] eqn:Hb.
  - intros [Ha Hb']%andb_true_iff.
    apply negb_true_iff in Ha. apply negb_true_iff in Hb'.
    split; [done|]. apply last_Some in Hb as [t Ht]. by exists t, b.
  - by apply last_None in Hb.
Qed.

Lemma strip_fixed s : Py.clean_ends s = true → Py.strip s = s.
Proof.
  destruct s as [|a s]; [done|].
  intros (Ha & t & b & Ht & Hb)%clean_ends_cons.
  unfold Py.strip. rewrite lstrip_clean.
  - apply rstrip_clean. intros c. rewrite Ht, last_snoc. by intros [= <-].
  - by intros c [= <-].
Qed.

Lemma strip_fixed_iff s : Py.strip s = s ↔ Py.clean_ends s = true.
Proof.
  split; [|apply strip_fixed]. intros <-. apply strip_clean_ends.
Qed.


Lemma elem_of_strip s c : c ∈ Py.strip s → c ∈ s.
Proof.
  destruct (strip_split s) as (pre & post & Hs & _). intros Hc.
  rewrite Hs, !elem_of_app. auto.
Qed.

(** Removing a blank character keeps the ends clean. *)
Lemma remove_char_clean_ends c s :
  Char.is_space c = true →
  Py.clean_ends s = true → Py.clean_ends (Py.remove_char c s) = true.
Proof.
  intros Hc. destruct s as [|a s]; [done|].
  intros (Ha & t & b & Ht & Hb)%clean_ends_cons.
  assert (a ≠ c) as Hac by (intros ->; congruence).
  assert (b ≠ c) as Hbc by (intros ->; congruence).
  unfold Py.clean_ends, Py.remove_char.
  rewrite filter_cons_True by done. cbn [head].
  rewrite <- (filter_cons_True (fun x => x ≠ c) a s) by done.
  rewrite Ht, filter_app, filter_cons_True, filter_nil by done.
  rewrite last_snoc. by rewrite Ha, Hb.
Qed.

End Strip.

(** ** More on the detail extractor *)

(** X1. The title of every record the detail extractor yields has no
    blank at either end: stripping it again changes nothing. *)
Theorem title_has_clean_ends urljoin r it :
  it ∈ items (TiasPdfSpider.parse urljoin r) →
  Py.strip (TiasPdfSpider.title it) = TiasPdfSpider.title it.
Proof.
  intros (primary & links & -> & _)%pdf_items_inv. apply strip_fixed.
  cbn [TiasPdfSpider.make_record TiasPdfSpider.title].
  unfold TiasPdfSpider.extract_title. case_bool_decide as Hp.
  - apply strip_clean_ends.
  - unfold TiasPdfSpider.pattern_title.
    destruct (Re.search _ _) as [g|]; [|done].
    do 2 (apply remove_char_clean_ends; [reflexivity|]).
    apply strip_clean_ends.
Qed.

Lemma title_has_clean_ends_witness :
  let it :=
    TiasPdfSpider.make_record Samples.detail_page
      (str "https://www.state.gov/docs/a.pdf")
      [ str "https://www.state.gov/docs/a.pdf";
        str "https://www.state.gov/docs/b.pdf";
        str "https://www.state.gov/docs/b.pdf" ] in
  TiasPdfSpider.title it = str "Agreement on Trade"
  ∧ Py.strip (TiasPdfSpider.title it) = TiasPdfSpider.title it.
Proof.
  intros it. split; [by vm_compute|].
  apply (title_has_clean_ends Samples.root_join Samples.detail_page).
  assert (items (TiasPdfSpider.parse Samples.root_join Samples.detail_page)
          = [it]) as -> by (by vm_compute).
  by apply list_elem_of_singleton.
Defined.




(** ** The seed file of the detail extractor *)

Section TextFile.
Implicit Types s l u body : pystr.

Local Abbreviation nl := ("010"%char).
Local Abbreviation cr := ("013"%char).

Lemma universal_newlines_no_cr s : cr ∉ Py.universal_newlines s.
Proof.
  assert (H : ∀ n s, length s <= n → cr ∉ Py.universal_newlines s).
  { clear s. induction n as [|n IH]; intros [|c s] Hn; simpl in *;
      try apply not_elem_of_nil; [lia|].
    destruct (Ascii.eqb_spec c "013") as [->|Hc].
    - apply not_elem_of_cons. split; [done|].
      destruct s as [|a s]; [apply not_elem_of_nil|].
      destruct (Ascii.eqb a "010"); apply IH; simpl in *; lia.
    - apply not_elem_of_cons. split; [done|]. apply IH. lia. }
  by apply (H (length s)).
Qed.

Lemma universal_newlines_fixed s : cr ∉ s → Py.universal_newlines s = s.
Proof.
  induction s as [|c s IH]; [done|].
  intros [Hc Hs]%not_elem_of_cons. simpl.
  destruct (Ascii.eqb_spec c "013") as [->|_]; [done|]. by rewrite IH.
Qed.

Lemma elem_of_lines s l c : l ∈ Py.lines s → c ∈ l → c ∈ s.
Proof.
  revert l. induction s as [|a s IH]; intros l; simpl.
  { intros H. by apply elem_of_nil in H. }
  destruct (Ascii.eqb a "010").
  - intros [->|Hl]%elem_of_cons Hc.
    + apply list_elem_of_singleton in Hc as ->. by left.
    + right. by apply (IH l).
  - destruct (Py.lines s) as [|l0 ls].
    + intros ->%list_elem_of_singleton Hc.
      apply list_elem_of_singleton in Hc as ->. by left.
    + intros [->|Hl]%elem_of_cons Hc.
      * apply elem_of_cons in Hc as [->|Hc]; [by left|].
        right. apply (IH l0); [by left|done].
      * right. apply (IH l); [by right|done].
Qed.

(** A line has a newline at its end or nowhere. *)
Lemma lines_shape s l :
  l ∈ Py.lines s → ∃ body, (nl ∉ body) ∧ (l = body ∨ l = body ++ [nl]).
Proof.
  revert l. induction s as [|a s IH]; intros l; simpl.
  { intros H. by apply elem_of_nil in H. }
  destruct (Ascii.eqb_spec a "010") as [->|Ha].
  - intros [->|Hl]%elem_of_cons; [|by apply IH].
    exists []. split; [apply not_elem_of_nil|by right].
  - destruct (Py.lines s) as [|l0 ls].
    + intros ->%list_elem_of_singleton. exists [a]. split; [|by left].
      apply not_elem_of_cons. split; [done|apply not_elem_of_nil].
    + intros [->|Hl]%elem_of_cons.
      * destruct (IH l0) as (body & Hb & Hl0); [by left|].
        exists (a :: body). split; [by apply not_elem_of_cons|].
        destruct Hl0 as [->| ->]; [by left|by right].
      * apply IH. by right.
Qed.

Lemma snoc_unique {A} (body a b : list A) (c : A) :
  c ∉ body → a ++ c :: b = body ++ [c] → b = [].
Proof.
  revert a. induction body as [|h body IH]; intros a Hc Heq.
  - destruct a as [|x [|y a]]; simpl in Heq; [by injection Heq| |];
      discriminate Heq.
  - apply not_elem_of_cons in Hc as [Hch Hc].
    destruct a as [|x a]; simpl in Heq.
    + by injection Heq as -> _.
    + injection Heq as _ Heq. by apply (IH a).
Qed.

Lemma strip_line_no_newline body l :
  nl ∉ body → l = body ∨ l = body ++ [nl] → nl ∉ Py.strip l.
Proof.
  intros Hb Hl Hin.
  destruct Hl as [->| ->]; [by apply elem_of_strip in Hin|].
  destruct (strip_split (body ++ [nl])) as (pre & post & Hs & _).
  apply list_elem_of_split in Hin as (x & y & Hxy).
  rewrite Hxy in Hs. rewrite <- !app_assoc, app_assoc in Hs.
  cbn [app] in Hs. symmetry in Hs. apply snoc_unique in Hs; [|done].
  apply app_eq_nil in Hs as [-> _].
  pose proof (strip_clean_ends (body ++ [nl])) as Hc.
  rewrite Hxy in Hc. unfold Py.clean_ends in Hc. rewrite last_snoc in Hc.
  destruct x as [|a x]; cbn [app head] in Hc;
    apply andb_true_iff in Hc as [_ Hc]; by vm_compute in Hc.
Qed.

Lemma lines_snoc_newline u rest :
  nl ∉ u → Py.lines (u ++ nl :: rest) = (u ++ [nl]) :: Py.lines rest.
Proof.
  induction u as [|a u IH]; [done|].
  intros [Ha Hu]%not_elem_of_cons. cbn [app Py.lines].
  destruct (Ascii.eqb_spec a "010") as [->|_]; [done|]. by rewrite IH.
Qed.

Lemma lines_of_written (urls : list pystr) :
  Forall (fun u => nl ∉ u) urls →
  Py.lines (flat_map (fun u => u ++ [nl]) urls) = map (fun u => u ++ [nl]) urls.
Proof.
  induction 1 as [|u urls Hu _ IH]; [done|].
  cbn [flat_map map]. rewrite <- app_assoc. cbn [app].
  by rewrite lines_snoc_newline, IH.
Qed.

Lemma strip_snoc_newline u :
  u ≠ [] → Py.clean_ends u = true → Py.strip (u ++ [nl]) = u.
Proof.
  destruct u as [|a u]; [done|]. intros _ Hc.
  pose proof Hc as (Ha & t & b & Ht & Hb)%clean_ends_cons.
  unfold Py.strip. rewrite lstrip_clean by (by intros c [= <-]).
  remember (a :: u) as w eqn:Hw.
  unfold Py.rstrip. rewrite rev_app_distr. change (rev [nl]) with [nl].
  cbn [app Py.lstrip]. change (Char.is_space nl) with true. cbn iota.
  rewrite lstrip_clean; [apply rev_involutive|].
  intros c. rewrite head_rev, Ht, last_snoc. by intros [= <-].
Qed.

End TextFile.

(** X3. When the detail extractor is given a seed file that can be
    opened, its seed URLs are the stripped non-blank lines of the file:
    none is empty, none has a blank at either end and none contains a
    carriage return or a newline. *)
Theorem seed_urls_are_clean (files : pystr -> option pystr) path content :
  path ≠ [] →
  files path = Some content →
  ∃ urls,
    TiasPdfSpider.init files (Some path) = Some urls
    ∧ Forall (fun u => u ≠ [] ∧ Py.strip u = u
                       ∧ ("010"%char ∉ u) ∧ ("013"%char ∉ u)) urls.
Proof.
  intros Hp Hf. unfold TiasPdfSpider.init.
  rewrite bool_decide_eq_false_2, Hf by done. eexists. split; [done|].
  apply Forall_forall. intros u [Hin Hne]%elem_of_List_filter.
  apply negb_true_iff, bool_decide_eq_false in Hne.
  change (map Py.strip ?l) with (Py.strip <$> l) in Hin.
  apply list_elem_of_fmap in Hin as (line & -> & Hline).
  split_and!.
  - done.
  - apply strip_fixed, strip_clean_ends.
  - destruct (lines_shape _ _ Hline) as (body & Hb & Hl).
    by apply (strip_line_no_newline body).
  - intros Hc%elem_of_strip.
    apply (universal_newlines_no_cr content).
    by apply (elem_of_lines _ line).
Qed.

Lemma seed_urls_are_clean_witness :
  ∃ urls,
    TiasPdfSpider.init
      (fun _ => Some (str " https://www.state.gov/16-629/ "
                      ++ ["013"; "010"; "010"]%char
                      ++ str "https://www.state.gov/10-413"))
      (Some (str "urls.txt"))
    = Some urls
    ∧ Forall (fun u => u ≠ [] ∧ Py.strip u = u
                       ∧ ("010"%char ∉ u) ∧ ("013"%char ∉ u)) urls.
Proof.
  eapply (seed_urls_are_clean _ (str "urls.txt")); [by vm_compute|reflexivity].
Defined.

(** X4. A seed file that holds URLs one per line, each ended by a
    newline, is read back as exactly that list of URLs, in order and with
    its repetitions, provided no URL is empty, has a blank at either end
    or contains a carriage return or a newline. *)
Theorem seed_file_round_trip (files : pystr -> option pystr) path
    (urls : list pystr) :
  path ≠ [] →
  Forall (fun u => u ≠ [] ∧ Py.strip u = u
                   ∧ ("010"%char ∉ u) ∧ ("013"%char ∉ u)) urls →
  files path = Some (flat_map (fun u => u ++ ["010"%char]) urls) →
  TiasPdfSpider.init files (Some path) = Some urls.
Proof.
  intros Hp Hurls Hf. unfold TiasPdfSpider.init.
  rewrite bool_decide_eq_false_2, Hf by done. clear Hf. f_equal.
  rewrite universal_newlines_fixed.
  - rewrite lines_of_written.
    + induction Hurls as [|u urls (Hne & Hs & _ & _) _ IH]; [done|].
      cbn [map List.filter].
      rewrite strip_snoc_newline; [|done|by apply strip_fixed_iff].
      rewrite bool_decide_eq_false_2 by done. cbn [negb]. by rewrite IH.
    + eapply Forall_impl; [exact Hurls|]. by intros u (_ & _ & ? & _).
  - induction Hurls as [|u urls (_ & _ & _ & Hcr) _ IH];
      [apply not_elem_of_nil|].
    cbn [flat_map]. rewrite !not_elem_of_app. split_and!; [done| |done].
    apply not_elem_of_cons. split; [done|apply not_elem_of_nil].
Qed.

Lemma seed_file_round_trip_witness :
  TiasPdfSpider.init
    (fun _ => Some (flat_map (fun u => u ++ ["010"%char])
                      [ str "https://www.state.gov/10-413";
                        str "https://www.state.gov/10-413";
                        str "https://www.state.gov/16-629/" ]))
    (Some (str "urls.txt"))
  = Some [ str "https://www.state.gov/10-413";
           str "https://www.state.gov/10-413";
           str "https://www.state.gov/16-629/" ].
Proof.
  apply (seed_file_round_trip _ (str "urls.txt")); [by vm_compute| |reflexivity].
  repeat constructor; try (by vm_compute);
    apply (bool_decide_unpack _); by vm_compute.
Defined.

(** ** What a match of a pattern looks like *)

Section Inversion.
Import Re.
Context {R : Type}.
Implicit Types k : @cont R.

Lemma cls_Some p k prev n s x :
  cls p k prev n s = Some x →
  ∃ c rest, s = c :: rest ∧ p c = true ∧ k (Some c) (S n) rest = Some x.
Proof.
  unfold cls. destruct s as [|c rest]; [done|].
  destruct (p c) eqn:Hc; [|done]. intros H. by exists c, rest.
Qed.

Lemma chr_Some a k prev n s x :
  chr a k prev n s = Some x →
  ∃ rest, s = a :: rest ∧ k (Some a) (S n) rest = Some x.
Proof.
  unfold chr. intros H.
  apply cls_Some in H as (c & rest & -> & Hc & H).
  apply Ascii.eqb_eq in Hc as <-. by exists rest.
Qed.

Lemma opt_Some (m : cont → cont) k prev n s x :
  opt m k prev n s = Some x → m k prev n s = Some x ∨ k prev n s = Some x.
Proof. unfold opt. destruct (m k prev n s); [intros [= <-]; by left|by right]. Qed.

Lemma word_boundary_Some k prev n s x :
  word_boundary k prev n s = Some x → k prev n s = Some x.
Proof. unfold word_boundary. by destruct (xorb _ _). Qed.

Lemma eol_Some k prev n s x :
  eol k prev n s = Some x →
  (s = [] ∨ s = ["010"%char]) ∧ k prev n s = Some x.
Proof.
  unfold eol. destruct s as [|c [|c' s]]; [by auto| |done].
  destruct (Ascii.eqb_spec c "010") as [->|]; [by auto|done].
Qed.

End Inversion.

Lemma elem_of_findall_from p prev skip s x :
  x ∈ Re.findall_from p prev skip s →
  ∃ prev' here sp, p prev' here = Some sp ∧ x = Re.group1 sp here.
Proof.
  revert prev skip. induction s as [|c s IH]; intros prev skip.
  - simpl. destruct skip; [|by intros ?%elem_of_nil].
    destruct (p prev []) as [sp|] eqn:E; [|by intros ?%elem_of_nil].
    intros ->%list_elem_of_singleton. by exists prev, [], sp.
  - destruct skip as [|k]; [|apply IH]. cbn [Re.findall_from].
    destruct (p prev (c :: s)) as [sp|] eqn:E; [|apply IH].
    intros [->|Hx]%elem_of_cons; [by exists prev, (c :: s), sp|].
    by apply IH in Hx.
Qed.

(** A match of the code pattern: two digits, at most one separator, three
    or four digits. *)
Lemma code_pattern_shape prev s sp :
  Patterns.code_pattern prev s = Some sp →
  ∃ a b sep t,
    Re.group1 sp s = [a; b] ++ sep ++ t
    ∧ Char.is_digit a = true ∧ Char.is_digit b = true
    ∧ (sep = [] ∨ ∃ x, sep = [x] ∧ Patterns.is_sep x = true)
    ∧ Forall (fun d => Char.is_digit d = true) t
    ∧ 3 <= length t <= 4.
Proof.
  unfold Patterns.code_pattern. cbn [Re.times Re.upto].
  intros H%word_boundary_Some.
  apply cls_Some in H as (a & s1 & -> & Ha & H).
  apply cls_Some in H as (b & s2 & -> & Hb & H).
  exists a, b.
  assert (Hdigits : ∀ prev' n s',
    Re.cls Char.is_digit (Re.cls Char.is_digit (Re.cls Char.is_digit
      (Re.opt (fun k' => Re.cls Char.is_digit k')
         (Re.word_boundary Re.accept)))) prev' n s' = Some sp →
    ∃ t, take (Re.m_end sp - n) s' = t
         ∧ Re.g_start sp = 0 ∧ Re.g_end sp = Re.m_end sp
         ∧ n + length t = Re.m_end sp
         ∧ Forall (fun d => Char.is_digit d = true) t
         ∧ 3 <= length t <= 4).
  { clear. intros prev n s H.
    apply cls_Some in H as (c & s3 & -> & Hc & H).
    apply cls_Some in H as (d & s4 & -> & Hd & H).
    apply cls_Some in H as (e & s5 & -> & He & H).
    apply opt_Some in H as [H|H].
    - apply cls_Some in H as (f & s6 & -> & Hf & H).
      apply word_boundary_Some in H. injection H as <-. cbn [Re.m_end].
      replace (S (S (S (S n))) - n) with 4 by lia.
      exists [c; d; e; f]. cbn. split_and!; try done; try lia.
      by repeat constructor.
    - apply word_boundary_Some in H. injection H as <-. cbn [Re.m_end].
      replace (S (S (S n)) - n) with 3 by lia.
      exists [c; d; e]. cbn. split_and!; try done; try lia.
      by repeat constructor. }
  apply opt_Some in H as [H|H].
  - apply cls_Some in H as (x & s3 & -> & Hx & H).
    apply Hdigits in H as (t & Ht & Hs & He & Hn & Hd & Hl).
    exists [x], t. unfold Re.group1, Re.slice. rewrite Hs, He, drop_0, Nat.sub_0_r.
    replace (Re.m_end sp) with (3 + (Re.m_end sp - 3)) by lia.
    cbn [take Nat.add app]. rewrite Ht. split_and!; try done; try lia.
    right. by exists x.
  - apply Hdigits in H as (t & Ht & Hs & He & Hn & Hd & Hl).
    exists [], t. unfold Re.group1, Re.slice. rewrite Hs, He, drop_0, Nat.sub_0_r.
    replace (Re.m_end sp) with (2 + (Re.m_end sp - 2)) by lia.
    cbn [take Nat.add app]. rewrite Ht. split_and!; try done; try lia.
    by left.
Qed.

Lemma elem_of_flat_map {A B} (f : A -> list B) (l : list A) (y : B) :
  y ∈ flat_map f l ↔ ∃ x, x ∈ l ∧ y ∈ f x.
Proof.
  rewrite list_elem_of_In, in_flat_map. split.
  - intros (x & Hx & Hy). exists x. by rewrite !list_elem_of_In.
  - intros (x & Hx & Hy). exists x. by rewrite <- !list_elem_of_In.
Qed.

(** X5. The agreement codes of a page are listed without repetition, and
    a string is among them exactly when the code pattern matches it
    inside one stripped paragraph piece or inside the text of one PDF
    anchor: joining the pieces with [" | "] never makes a code out of the
    end of one piece and the start of the next. *)
Theorem codes_come_from_single_pieces r :
  NoDup (TiasPdfSpider.extract_codes r)
  ∧ ∀ code,
      code ∈ TiasPdfSpider.extract_codes r
      ↔ (∃ piece,
           piece ∈ TiasPdfSpider.clean_paragraphs (xpath r (str "//p//text()"))
           ∧ code ∈ Re.findall Patterns.code_pattern piece)
        ∨ (∃ caption,
             caption ∈ css r (TiasPdfSpider.pdf_anchor (str "text"))
             ∧ code ∈ Re.findall Patterns.code_pattern caption).
Proof.
  unfold TiasPdfSpider.extract_codes, TiasPdfSpider.code_set.
  split; [apply NoDup_elements|]. intros code.
  rewrite elem_of_elements, elem_of_list_to_set, pooled_codes_by_paragraph.
  by rewrite elem_of_app, !elem_of_flat_map.
Qed.

(** X6. Every agreement code of a page is two digits, then at most one
    hyphen or blank, then three or four digits: five to seven characters. *)
Theorem codes_have_the_code_shape r code :
  code ∈ TiasPdfSpider.extract_codes r →
  ∃ a b sep t,
    code = [a; b] ++ sep ++ t
    ∧ Char.is_digit a = true ∧ Char.is_digit b = true
    ∧ (sep = [] ∨ ∃ x, sep = [x] ∧ (x = "-"%char ∨ Char.is_space x = true))
    ∧ Forall (fun d => Char.is_digit d = true) t
    ∧ 3 <= length t <= 4.
Proof.
  unfold TiasPdfSpider.extract_codes, TiasPdfSpider.code_set.
  rewrite elem_of_elements, elem_of_list_to_set.
  unfold TiasPdfSpider.pooled_codes. rewrite elem_of_app, elem_of_flat_map.
  intros H.
  assert (∃ prev here sp,
            Patterns.code_pattern prev here = Some sp
            ∧ code = Re.group1 sp here) as (prev & here & sp & Hm & ->).
  { destruct H as [H|(t & _ & H)]; by apply elem_of_findall_from in H. }
  destruct (code_pattern_shape _ _ _ Hm) as (a & b & sep & t & Hg & Ha & Hb & Hs & Ht & Hl).
  exists a, b, sep, t. split_and!; try done; try lia.
  destruct Hs as [->|(x & -> & Hx)]; [by left|right].
  exists x. split; [done|]. unfold Patterns.is_sep in Hx.
  apply orb_true_iff in Hx as [->%Ascii.eqb_eq|Hx]; auto.
Qed.

Lemma codes_have_the_code_shape_witness :
  ∃ a b sep t,
    str "12-345" = [a; b] ++ sep ++ t
    ∧ Char.is_digit a = true ∧ Char.is_digit b = true
    ∧ (sep = [] ∨ ∃ x, sep = [x] ∧ (x = "-"%char ∨ Char.is_space x = true))
    ∧ Forall (fun d => Char.is_digit d = true) t
    ∧ 3 <= length t <= 4.
Proof.
  apply (codes_have_the_code_shape Samples.detail_page).
  apply (bool_decide_unpack _). by vm_compute.
Defined.

(** ** More on the index crawler *)

Lemma split_no_separator c s : c ∉ s → Py.split c s = [s].
Proof.
  induction s as [|a s IH]; [done|].
  intros [Ha Hs]%not_elem_of_cons. simpl.
  destruct (Ascii.eqb_spec a c) as [->|_]; [done|]. by rewrite IH.
Qed.

Lemma split_at_separator c u rest :
  c ∉ u → Py.split c (u ++ c :: rest) = u :: Py.split c rest.
Proof.
  induction u as [|a u IH]; intros Hu.
  - simpl. by rewrite Ascii.eqb_refl.
  - apply not_elem_of_cons in Hu as [Ha Hu]. cbn [app Py.split].
    destruct (Ascii.eqb_spec a c) as [->|_]; [done|]. by rewrite IH.
Qed.

Lemma links_parse_no_slash d r :
  "/"%char ∉ url r →
  TiasLinksSpider.parse d r
  = {| trace := TiasLinksSpider.opening_log r; raised := Some IndexError |}.
Proof.
  intros Hu. unfold TiasLinksSpider.parse.
  by rewrite (split_no_separator _ _ Hu).
Qed.

(** X7. The parse step of the index crawler ends with [IndexError]
    exactly when the URL of the response has no slash; it has then
    logged its two opening lines only: no debug file is written and no
    record is emitted, whatever the page holds. *)
Theorem parse_raises_exactly_without_slash d r :
  (raised (TiasLinksSpider.parse d r) = Some IndexError ↔ "/"%char ∉ url r)
  ∧ ("/"%char ∉ url r →
     trace (TiasLinksSpider.parse d r) = TiasLinksSpider.opening_log r
     ∧ items (TiasLinksSpider.parse d r) = []).
Proof.
  split.
  - split.
    + intros Hr Hu. destruct (url_segment_exists _ Hu) as [seg Hseg].
      unfold TiasLinksSpider.parse, write_file in Hr. rewrite Hseg in Hr.
      case_bool_decide; [done|]. by destruct (d _ _).
    + intros Hu. by rewrite links_parse_no_slash.
  - intros Hu. by rewrite links_parse_no_slash.
Qed.

Lemma parse_raises_exactly_without_slash_witness :
  let r := {| url := str "about:blank"; status := 200; headers := [];
              text := str "<html></html>";
              css := fun _ => [str "/10-413"]; xpath := fun _ => [] |} in
  trace (TiasLinksSpider.parse Samples.name_limit_disk r)
  = TiasLinksSpider.opening_log r
  ∧ items (TiasLinksSpider.parse Samples.name_limit_disk r) = [].
Proof.
  cbv zeta. apply parse_raises_exactly_without_slash.
  intros Hin. apply (bool_decide_pack _) in Hin. by vm_compute in Hin.
Defined.

Lemma year_url_split year :
  "/"%char ∉ year →
  Py.split "/" (TiasLinksSpider.year_url year)
  = [ str "https:"; []; str "www.state.gov"; year ++ str "-TIAS";
      str "?results=200" ].
Proof.
  intros Hy. unfold TiasLinksSpider.year_url.
  change (str "https://www.state.gov/" ++ year ++ str "-TIAS/?results=200")
    with (str "https:" ++ "/"%char
          :: ([] ++ "/"%char
              :: (str "www.state.gov" ++ "/"%char
                  :: (year ++ str "-TIAS/?results=200")))).
  replace (year ++ str "-TIAS/?results=200")
    with ((year ++ str "-TIAS") ++ "/"%char :: str "?results=200")
    by (by rewrite <- app_assoc).
  assert (Hno : ∀ s : pystr,
            bool_decide ("/"%char ∈ s) = false → "/"%char ∉ s).
  { intros s. apply bool_decide_eq_false. }
  rewrite !split_at_separator, split_no_separator; first done.
  - by apply Hno.
  - apply not_elem_of_app. split; [done|]. by apply Hno.
  - by apply Hno.
  - apply not_elem_of_nil.
  - by apply Hno.
Qed.

(** X8. For the index page of a year (a year written without a slash)
    whose debug file can be written, the file written is
    [debug_html/<year>-TIAS.html] and holds the text of the page; the
    pages of two different such years never share a debug file. *)
Theorem debug_file_is_named_after_the_year d r year :
  "/"%char ∉ year →
  url r = TiasLinksSpider.year_url year →
  write_file d (str "debug_html/" ++ year ++ str "-TIAS.html") (text r)
  = None →
  WriteFile (str "debug_html/" ++ year ++ str "-TIAS.html") (text r)
    ∈ trace (TiasLinksSpider.parse d r)
  ∧ ∀ year',
      str "debug_html/" ++ year' ++ str "-TIAS.html"
      = str "debug_html/" ++ year ++ str "-TIAS.html" →
      year' = year.
Proof.
  intros Hy Hu Hw. split.
  - assert (Hseg : Py.index_from_end 2 (Py.split "/" (url r))
                   = Some (year ++ str "-TIAS")).
    { by rewrite Hu, (year_url_split _ Hy). }
    assert (Hname : TiasLinksSpider.html_file (year ++ str "-TIAS")
                    = str "debug_html/" ++ year ++ str "-TIAS.html").
    { unfold TiasLinksSpider.html_file. by rewrite <- app_assoc. }
    rewrite <- Hname in Hw. rewrite (links_parse_trace _ _ _ Hseg Hw).
    cbn [trace]. rewrite !elem_of_app. right. left.
    unfold TiasLinksSpider.save_html. rewrite Hname. by left.
  - intros year' Heq. apply app_inv_head in Heq. by apply app_inv_tail in Heq.
Qed.

Lemma debug_file_is_named_after_the_year_witness :
  WriteFile (str "debug_html/2020-TIAS.html") (text Samples.index_page)
    ∈ trace (TiasLinksSpider.parse Samples.name_limit_disk Samples.index_page).
Proof.
  apply (debug_file_is_named_after_the_year Samples.name_limit_disk
           Samples.index_page (str "2020")).
  - intros Hin. apply (bool_decide_pack _) in Hin. by vm_compute in Hin.
  - reflexivity.
  - by vm_compute.
Defined.

Lemma lower_app (a b : pystr) : Py.lower (a ++ b) = Py.lower a ++ Py.lower b.
Proof. unfold Py.lower. apply map_app. Qed.

Lemma links_parse_blocked_items d r :
  blocked r = true → items (TiasLinksSpider.parse d r) = [].
Proof.
  intros Hb. unfold TiasLinksSpider.parse, items.
  destruct (Py.index_from_end _ _); [|done].
  destruct (write_file _ _ _); [done|]. by rewrite Hb.
Qed.

(** X9. A page whose text holds the word "forbidden" in any mix of upper
    and lower case, anywhere, is taken as blocked whatever its status:
    neither spider emits a record for it. *)
Theorem forbidden_word_blocks_the_page d urljoin r
    (before word after : pystr) :
  text r = before ++ word ++ after →
  Py.lower word = str "forbidden" →
  blocked r = true
  ∧ items (TiasLinksSpider.parse d r) = []
  ∧ items (TiasPdfSpider.parse urljoin r) = [].
Proof.
  intros Ht Hw.
  assert (Hb : blocked r = true).
  { unfold blocked. rewrite Ht, !lower_app, Hw, contains_app. done. }
  split_and!; [done|by apply links_parse_blocked_items|].
  by rewrite pdf_parse_items, Hb.
Qed.

Lemma forbidden_word_blocks_the_page_witness :
  let r := {| url := str "https://www.state.gov/12-345/"; status := 200;
              headers := [];
              text := str "<p>Trade in Forbidden goods</p>";
              css := fun _ => []; xpath := fun _ => [] |} in
  blocked r = true
  ∧ items (TiasLinksSpider.parse Samples.name_limit_disk r) = []
  ∧ items (TiasPdfSpider.parse Samples.root_join r) = [].
Proof.
  cbv zeta.
  apply (forbidden_word_blocks_the_page _ _ _
           (str "<p>Trade in ") (str "Forbidden") (str " goods</p>"));
    reflexivity.
Defined.

(** X10. What the parse step of the index crawler emits, and whether it
    raises, depends only on the URL, the status, the text and the hrefs of
    the result list: the headers and the answers to every other query,
    the one for all anchors included, change nothing. *)
Theorem index_output_ignores_other_queries d r r' :
  url r = url r' →
  status r = status r' →
  text r = text r' →
  css r TiasLinksSpider.result_link_selector
  = css r' TiasLinksSpider.result_link_selector →
  items (TiasLinksSpider.parse d r) = items (TiasLinksSpider.parse d r')
  ∧ raised (TiasLinksSpider.parse d r) = raised (TiasLinksSpider.parse d r').
Proof.
  intros Hu Hs Ht Hc.
  assert (Hb : blocked r = blocked r') by (unfold blocked; by rewrite Hs, Ht).
  assert (Ha : TiasLinksSpider.agreement_links r
               = TiasLinksSpider.agreement_links r').
  { unfold TiasLinksSpider.agreement_links, TiasLinksSpider.links,
      TiasLinksSpider.valid_markdown_links, TiasLinksSpider.markdown_links.
    by rewrite Ht, Hc. }
  assert (Hr : raised (TiasLinksSpider.parse d r)
               = raised (TiasLinksSpider.parse d r')).
  { unfold TiasLinksSpider.parse. rewrite Hu, Ht.
    destruct (Py.index_from_end _ _); [|done]. by destruct (write_file _ _ _). }
  split; [|done].
  destruct (raised (TiasLinksSpider.parse d r)) as [e|] eqn:E.
  - symmetry in Hr. revert E Hr. unfold TiasLinksSpider.parse, items.
    rewrite Hu, Ht. destruct (Py.index_from_end _ _); [|done].
    by destruct (write_file _ _ _).
  - symmetry in Hr. destruct (blocked r) eqn:Hbr; symmetry in Hb.
    + by rewrite !links_parse_blocked_items.
    + by rewrite (links_parse_items _ _ E Hbr), (links_parse_items _ _ Hr Hb), Ha.
Qed.

Lemma index_output_ignores_other_queries_witness :
  let r' := {| url := url Samples.index_page;
               status := status Samples.index_page;
               headers := [(str "Server", str "x")];
               text := text Samples.index_page;
               css := fun q =>
                 if bool_decide (q = str "a::attr(href)")
                 then [str "/treaties-and-agreements/"; str "/about"]
                 else css Samples.index_page q;
               xpath := fun _ => [str "p"] |} in
  items (TiasLinksSpider.parse Samples.name_limit_disk Samples.index_page)
  = items (TiasLinksSpider.parse Samples.name_limit_disk r')
  ∧ raised (TiasLinksSpider.parse Samples.name_limit_disk Samples.index_page)
    = raised (TiasLinksSpider.parse Samples.name_limit_disk r').
Proof.
  cbv zeta. apply index_output_ignores_other_queries; reflexivity.
Defined.

Lemma init_warnings years a n :
  TiasLinksSpider.int a = Some n →
  Forall (fun e => log_level e ≠ Some WARNING)
    (TiasLinksSpider.init years (Some a)).2.
Proof.
  intros Ha. unfold TiasLinksSpider.init.
  destruct (TiasLinksSpider.truthy (Some a)); rewrite ?Ha;
    cbn [snd app]; by repeat constructor.
Qed.

(** X11. A year limit that parses as a negative integer [-k] is taken as
    a slice bound: the crawler drops the last [k] years (all of them when
    there are at most [k]) and logs no warning. *)
Theorem negative_year_limit_drops_last_years (years : list pystr) a n :
  TiasLinksSpider.int a = Some n →
  (n < 0)%Z →
  let '(sp, events) := TiasLinksSpider.init years (Some a) in
  map req_url (TiasLinksSpider.start_requests sp)
  = take (length years - Z.to_nat (- n)) (map TiasLinksSpider.year_url years)
  ∧ Forall (fun e => log_level e ≠ Some WARNING) events.
Proof.
  intros Ha Hn.
  pose proof (init_with_limit years _ _ Ha) as Hu.
  pose proof (init_warnings years _ _ Ha) as Hw.
  destruct (TiasLinksSpider.init years (Some a)) as [sp events].
  cbn [fst snd] in *. split; [|done].
  rewrite start_requests_urls, Hu by lia. unfold Py.slice_to.
  destruct (Z.leb_spec 0 n); [lia|]. by rewrite length_map.
Qed.

Lemma negative_year_limit_drops_last_years_witness :
  let '(sp, events) :=
    TiasLinksSpider.init Samples.years
      (Some (TiasLinksSpider.AStr (str " -2 "))) in
  map req_url (TiasLinksSpider.start_requests sp)
  = take 1 (map TiasLinksSpider.year_url Samples.years)
  ∧ Forall (fun e => log_level e ≠ Some WARNING) events.
Proof.
  apply (negative_year_limit_drops_last_years Samples.years
           (TiasLinksSpider.AStr (str " -2 ")) (-2)%Z); [reflexivity|lia].
Defined.

(** X12. A year limit given as a string that parses as zero leaves no
    year and no request, without a warning, whereas the integer zero and
    the empty string count as no limit: every year is requested. *)
Theorem zero_year_limit (years : list pystr) :
  (∀ s,
     PyInt.of_str s = Some 0%Z →
     TiasLinksSpider.start_requests
       (TiasLinksSpider.init years (Some (TiasLinksSpider.AStr s))).1 = []
     ∧ Forall (fun e => log_level e ≠ Some WARNING)
         (TiasLinksSpider.init years (Some (TiasLinksSpider.AStr s))).2)
  ∧ map req_url
      (TiasLinksSpider.start_requests
         (TiasLinksSpider.init years (Some (TiasLinksSpider.AInt 0))).1)
    = map TiasLinksSpider.year_url years
  ∧ map req_url
      (TiasLinksSpider.start_requests
         (TiasLinksSpider.init years (Some (TiasLinksSpider.AStr []))).1)
    = map TiasLinksSpider.year_url years.
Proof.
  split_and!.
  - intros s Hs. split; [|by apply (init_warnings _ _ 0%Z)].
    unfold TiasLinksSpider.init.
    assert (TiasLinksSpider.truthy (Some (TiasLinksSpider.AStr s)) = true) as ->.
    { destruct s; [discriminate Hs|done]. }
    cbn [TiasLinksSpider.int]. by rewrite Hs.
  - by rewrite start_requests_urls.
  - by rewrite start_requests_urls.
Qed.

Lemma zero_year_limit_witness :
  TiasLinksSpider.start_requests
    (TiasLinksSpider.init Samples.years
       (Some (TiasLinksSpider.AStr (str "00")))).1 = []
  ∧ Forall (fun e => log_level e ≠ Some WARNING)
      (TiasLinksSpider.init Samples.years
         (Some (TiasLinksSpider.AStr (str "00")))).2.
Proof.
  apply (proj1 (zero_year_limit Samples.years) (str "00")). reflexivity.
Defined.

(** X13. Whatever the year limit, the requests of the index crawler go
    to a prefix of the year URLs, in the order of the year list, each
    with the same headers and the same page methods. *)
Theorem requests_are_a_prefix_of_the_years (years : list pystr)
    (max_years : option TiasLinksSpider.arg) :
  let requests :=
    TiasLinksSpider.start_requests (TiasLinksSpider.init years max_years).1 in
  map req_url requests `prefix_of` map TiasLinksSpider.year_url years
  ∧ Forall (fun q => req_headers q = TiasLinksSpider.request_headers
                     ∧ req_page_methods q = TiasLinksSpider.page_methods)
      requests.
Proof.
  cbv zeta. split.
  - rewrite start_requests_urls. unfold TiasLinksSpider.init.
    destruct (TiasLinksSpider.truthy max_years); [|done].
    destruct max_years as [a|]; [|done].
    destruct (TiasLinksSpider.int a) as [n|]; [|done].
    cbn [fst TiasLinksSpider.year_urls]. unfold Py.slice_to.
    destruct (0 <=? n)%Z; apply prefix_take.
  - unfold TiasLinksSpider.start_requests.
    apply Forall_forall. intros q Hq.
    change (map ?f ?l) with (f <$> l) in Hq.
    by apply list_elem_of_fmap in Hq as (u & -> & _).
Qed.

Lemma lit_app {R} (w : pystr) (k : @Re.cont R) prev n rest :
  ∃ prev', Re.lit w k prev n (w ++ rest) = k prev' (n + length w) rest.
Proof.
  revert prev n. induction w as [|c w IH]; intros prev n.
  - exists prev. by rewrite Nat.add_0_r.
  - destruct (IH (Some c) (S n)) as [prev' H]. exists prev'.
    cbn [Re.lit app]. unfold Re.chr, Re.cls. rewrite Ascii.eqb_refl, H.
    by rewrite length_cons, Nat.add_succ_r.
Qed.

(** X14. A parenthesised link passes the strict test exactly when it is
    the site root followed by two digits, a hyphen and three or four
    digits, and then nothing or one newline: [$] lets a link that ends in
    a newline through. *)
Theorem agreement_url_shape (link : pystr) :
  Re.matches Patterns.agreement_url_pattern link = true
  ↔ ∃ a b c d e rest,
      link = str "https://www.state.gov/" ++ [a; b; "-"%char; c; d; e] ++ rest
      ∧ Forall (fun x => Char.is_digit x = true) [a; b; c; d; e]
      ∧ (rest = [] ∨ rest = ["010"%char]
         ∨ ∃ f, Char.is_digit f = true
                ∧ (rest = [f] ∨ rest = [f; "010"%char])).
Proof.
  unfold Re.matches, Patterns.agreement_url_pattern. split.
  - destruct (Re.lit _ _ _ _ _) as [sp|] eqn:E; [intros _|done].
    apply lit_Some in E as (prev' & s0 & -> & E). cbn [Re.times Re.upto] in E.
    apply cls_Some in E as (a & s1 & -> & Ha & E).
    apply cls_Some in E as (b & s2 & -> & Hb & E).
    apply chr_Some in E as (s3 & -> & E).
    apply cls_Some in E as (c & s4 & -> & Hc & E).
    apply cls_Some in E as (d & s5 & -> & Hd & E).
    apply cls_Some in E as (e & s6 & -> & He & E).
    exists a, b, c, d, e. apply opt_Some in E as [E|E].
    + apply cls_Some in E as (f & s7 & -> & Hf & E).
      apply eol_Some in E as [Hrest _]. eexists. split; [reflexivity|].
      split; [by repeat constructor|]. right. right. exists f.
      split; [done|]. destruct Hrest as [->| ->]; auto.
    + apply eol_Some in E as [Hrest _]. eexists. split; [reflexivity|].
      split; [by repeat constructor|]. destruct Hrest as [->| ->]; auto.
  - intros (a & b & c & d & e & rest & -> & Hall & Hrest).
    apply Forall_cons in Hall as [Ha Hall].
    apply Forall_cons in Hall as [Hb Hall].
    apply Forall_cons in Hall as [Hc Hall].
    apply Forall_cons in Hall as [Hd Hall].
    apply Forall_cons in Hall as [He _].
    change (str "https://www.state.gov/") with Patterns.site.
    match goal with
    | |- match Re.lit ?w ?k None 0 _ with _ => _ end = true =>
        destruct (lit_app w k None 0 ([a; b; "-"%char; c; d; e] ++ rest))
          as [prev' ->]
    end.
    cbn [Re.times Re.upto app]. unfold Re.chr, Re.opt, Re.cls.
    rewrite Ha, Hb, Hc, Hd, He. cbn [Ascii.eqb Bool.eqb].
    destruct Hrest as [->|[->|(f & Hf & [->| ->])]]; rewrite ?Hf; done.
Qed.

Lemma agreement_url_shape_witness :
  Re.matches Patterns.agreement_url_pattern
    (str "https://www.state.gov/12-3456" ++ ["010"%char]) = true.
Proof.
  apply agreement_url_shape.
  exists "1"%char, "2"%char, "3"%char, "4"%char, "5"%char, ["6"; "010"]%char.
  split; [reflexivity|]. split; [by repeat constructor|].
  right. right. exists "6"%char. split; [reflexivity|by right].
Defined.

Lemma star_Some {R} p (k : @Re.cont R) prev n s x :
  Re.star p k prev n s = Some x →
  ∃ u rest prev',
    s = u ++ rest ∧ Forall (fun c => p c = true) u
    ∧ k prev' (n + length u) rest = Some x.
Proof.
  revert prev n. induction s as [|c s IH]; intros prev n; cbn [Re.star].
  - intros H. exists [], [], prev. by rewrite Nat.add_0_r.
  - assert (Hstop : k prev n (c :: s) = Some x →
              ∃ u rest prev', c :: s = u ++ rest
                ∧ Forall (fun c => p c = true) u
                ∧ k prev' (n + length u) rest = Some x).
    { intros H. exists [], (c :: s), prev. by rewrite Nat.add_0_r. }
    destruct (p c) eqn:Hc; [|done].
    destruct (Re.star p k (Some c) (S n) s) as [y|] eqn:E; [|done].
    intros [= <-]. apply IH in E as (u & rest & prev' & -> & Hu & E).
    exists (c :: u), rest, prev'. split; [done|]. split; [by constructor|].
    by rewrite length_cons, Nat.add_succ_r.
Qed.

Lemma elem_of_findall_from_at p prev skip s x :
  x ∈ Re.findall_from p prev skip s →
  ∃ before prev' here sp,
    s = before ++ here ∧ p prev' here = Some sp ∧ x = Re.group1 sp here.
Proof.
  revert prev skip. induction s as [|c s IH]; intros prev skip.
  - simpl. destruct skip; [|by intros ?%elem_of_nil].
    destruct (p prev []) as [sp|] eqn:E; [|by intros ?%elem_of_nil].
    intros ->%list_elem_of_singleton. by exists [], prev, [], sp.
  - assert (Hlater : ∀ prev' skip',
              x ∈ Re.findall_from p prev' skip' s →
              ∃ before prev' here sp,
                c :: s = before ++ here ∧ p prev' here = Some sp
                ∧ x = Re.group1 sp here).
    { intros prev' skip' (before & prev'' & here & sp & -> & H & ->)%IH.
      by exists (c :: before), prev'', here, sp. }
    destruct skip as [|k]; [|apply Hlater]. cbn [Re.findall_from].
    destruct (p prev (c :: s)) as [sp|] eqn:E; [|apply Hlater].
    intros [->|Hx]%elem_of_cons; [by exists [], prev, (c :: s), sp|].
    by apply Hlater in Hx.
Qed.

(** X15. Every link that method 1 of the index crawler finds stands in
    the page text between an opening and a closing parenthesis, starts
    with the site root, goes on with at least one character and holds no
    closing parenthesis. *)
Theorem markdown_links_stand_in_parentheses r link :
  link ∈ TiasLinksSpider.markdown_links r →
  ∃ before body after,
    text r = before ++ "("%char :: link ++ ")"%char :: after
    ∧ link = str "https://www.state.gov/" ++ body
    ∧ body ≠ []
    ∧ (")"%char ∉ body).
Proof.
  unfold TiasLinksSpider.markdown_links, Re.findall.
  intros (before & prev & here & sp & Ht & Hm & ->)%elem_of_findall_from_at.
  unfold Patterns.url_pattern in Hm.
  apply chr_Some in Hm as (s1 & -> & Hm). unfold Re.mark at 1 in Hm.
  apply lit_Some in Hm as (prev1 & s2 & -> & Hm). unfold Re.plus in Hm.
  apply cls_Some in Hm as (c & s3 & -> & Hc & Hm).
  apply star_Some in Hm as (u & s4 & prev2 & -> & Hu & Hm).
  unfold Re.mark in Hm. apply chr_Some in Hm as (after & -> & Hm).
  assert (Hsp : Re.g_start sp = 1
                ∧ Re.g_end sp = S (1 + length Patterns.site) + length u).
  { injection Hm as <-. split; reflexivity. }
  destruct Hsp as [Hs He]. clear Hm.
  exists before, (c :: u), after.
  assert (Hg : Re.group1 sp
                 ("("%char :: Patterns.site ++ c :: u ++ ")"%char :: after)
               = Patterns.site ++ c :: u).
  { unfold Re.group1, Re.slice. rewrite Hs, He. cbn [drop].
    replace (S (1 + length Patterns.site) + length u - 1)
      with (length (Patterns.site ++ c :: u))
      by (rewrite length_app, length_cons; lia).
    replace (Patterns.site ++ c :: u ++ ")"%char :: after)
      with ((Patterns.site ++ c :: u) ++ ")"%char :: after)
      by (by rewrite <- app_assoc).
    by rewrite drop_0, take_app_length. }
  rewrite Hg. split_and!.
  - rewrite Ht. by rewrite <- ?app_assoc.
  - done.
  - done.
  - apply not_elem_of_cons. split.
    + intros <-. by vm_compute in Hc.
    + intros Hin. rewrite Forall_forall in Hu. apply Hu in Hin.
      by vm_compute in Hin.
Qed.

Lemma markdown_links_stand_in_parentheses_witness :
  let r := {| url := str "https://www.state.gov/2020-TIAS/"; status := 200;
              headers := [];
              text := str "[A](https://www.state.gov/12-345) b";
              css := fun _ => []; xpath := fun _ => [] |} in
  ∃ before body after,
    text r = before ++ "("%char :: str "https://www.state.gov/12-345"
             ++ ")"%char :: after
    ∧ str "https://www.state.gov/12-345" = str "https://www.state.gov/" ++ body
    ∧ body ≠ []
    ∧ (")"%char ∉ body).
Proof.
  cbv zeta. apply markdown_links_stand_in_parentheses.
  apply (bool_decide_unpack _). by vm_compute.
Defined.

(** * Joined fields, file names and exceptions *)

(** ** [join] *)

Lemma join_cons sep x (l : list pystr) :
  l ≠ [] → Py.join sep (x :: l) = x ++ sep ++ Py.join sep l.
Proof. by destruct l. Qed.

(** The text at position [i] of a list stands in the joined string after
    the texts before it and one separator for each of them, the last of
    which comes right before it. *)
Lemma join_lookup sep (l : list pystr) i x :
  l !! i = Some x →
  ∃ before after,
    Py.join sep l = before ++ x ++ after
    ∧ length before = sum_list (length <$> take i l) + i * length sep
    ∧ (i ≠ 0 → ∃ front, before = front ++ sep).
Proof.
  revert i. induction l as [|y l IH]; intros i Hi; [done|].
  destruct i as [|i].
  - injection Hi as ->. exists []. destruct l as [|z l].
    + exists []. by rewrite app_nil_r.
    + by exists (sep ++ Py.join sep (z :: l)).
  - cbn [lookup list_lookup] in Hi.
    destruct (IH i Hi) as (before & after & Hj & Hlen & Hsep).
    assert (l ≠ []) as Hne by (intros ->; done).
    exists (y ++ sep ++ before), after. split_and!.
    + by rewrite (join_cons _ _ _ Hne), Hj, <- !app_assoc.
    + rewrite !length_app, Hlen. cbn [take fmap list_fmap sum_list id].
      unfold id. lia.
    + intros _. destruct i as [|i].
      * destruct before; [|done]. exists y. by rewrite app_nil_r.
      * destruct Hsep as [front ->]; [done|].
        exists (y ++ sep ++ front). by rewrite <- !app_assoc.
Qed.

Lemma join_length sep (l : list pystr) :
  length (Py.join sep l)
  = sum_list (length <$> l) + (length l - 1) * length sep.
Proof.
  induction l as [|x l IH]; [done|]. destruct l as [|y l].
  - cbn. lia.
  - rewrite join_cons by done. rewrite !length_app, IH.
    cbn [fmap list_fmap sum_list length]. unfold id.
    replace (S (S (length l)) - 1) with (S (S (length l) - 1)) by lia. lia.
Qed.

(** ** The [other_pdfs] field *)

Lemma elem_of_other_pdf_links primary links link :
  link ∈ TiasPdfSpider.other_pdf_links primary links
  ↔ link ≠ primary ∧ link ∈ links.
Proof.
  unfold TiasPdfSpider.other_pdf_links.
  rewrite elem_of_List_filter, negb_true_iff, bool_decide_eq_false. tauto.
Qed.

Lemma all_pdf_links_Some urljoin r links :
  TiasPdfSpider.all_pdf_links urljoin r = Some links
  ↔ Forall2 (fun href link => urljoin (url r) href = Some link)
      (css r (TiasPdfSpider.pdf_anchor (str "attr(href)"))) links.
Proof. unfold TiasPdfSpider.all_pdf_links. apply mapM_Some. Qed.

(** C10. In every record the detail extractor emits, [other_pdfs] holds
    the [.pdf] hrefs resolved against the page URL, in document order
    and with their repetitions, but for those equal to [primary_pdf]: the
    kept links are a sublist of the resolved ones in which every other
    link occurs as often as among the anchors, the kept link number [i]
    stands in the field after the [i] links before it and [i] separators
    of two characters, right behind a separator [", "] when it is not
    the first, and nothing follows the last kept link but what the
    lengths allow: the field is as long as the links and the separators
    between them. *)
Theorem other_pdfs_keep_order_and_duplicates urljoin r it :
  it ∈ items (TiasPdfSpider.parse urljoin r) →
  ∃ resolved others,
    Forall2 (fun href link => urljoin (url r) href = Some link)
      (css r (TiasPdfSpider.pdf_anchor (str "attr(href)"))) resolved
    ∧ others `sublist_of` resolved
    ∧ (∀ link,
         Py.count link others
         = if bool_decide (link = TiasPdfSpider.primary_pdf it)
           then 0 else Py.count link resolved)
    ∧ (∀ i link,
         others !! i = Some link →
         ∃ before after,
           TiasPdfSpider.other_pdfs it = before ++ link ++ after
           ∧ length before = sum_list (length <$> take i others) + 2 * i
           ∧ (i ≠ 0 → ∃ front, before = front ++ str ", "))
    ∧ length (TiasPdfSpider.other_pdfs it)
      = sum_list (length <$> others) + 2 * (length others - 1).
Proof.
  intros (primary & links & -> & _ & _ & Hl & _)%pdf_items_inv.
  exists links, (TiasPdfSpider.other_pdf_links primary links).
  cbn [TiasPdfSpider.make_record TiasPdfSpider.primary_pdf
         TiasPdfSpider.other_pdfs].
  split_and!.
  - by apply all_pdf_links_Some.
  - apply sublist_List_filter.
  - intros link. unfold TiasPdfSpider.other_pdf_links.
    rewrite count_List_filter. by case_bool_decide.
  - intros i link Hi.
    destruct (join_lookup (str ", ") _ _ _ Hi)
      as (before & after & Hj & Hlen & Hsep).
    exists before, after. split_and!; [done| |done]. rewrite Hlen. cbn. lia.
  - rewrite join_length. cbn. lia.
Qed.

Lemma other_pdfs_keep_order_and_duplicates_witness :
  let it :=
    TiasPdfSpider.make_record Samples.detail_page
      (str "https://www.state.gov/docs/a.pdf")
      [ str "https://www.state.gov/docs/a.pdf";
        str "https://www.state.gov/docs/b.pdf";
        str "https://www.state.gov/docs/b.pdf" ] in
  items (TiasPdfSpider.parse Samples.root_join Samples.detail_page) = [it]
  ∧ TiasPdfSpider.other_pdfs it
    = str "https://www.state.gov/docs/b.pdf, https://www.state.gov/docs/b.pdf"
  ∧ ∃ resolved others,
      Forall2 (fun href link =>
                 Samples.root_join (url Samples.detail_page) href = Some link)
        (css Samples.detail_page (TiasPdfSpider.pdf_anchor (str "attr(href)")))
        resolved
      ∧ others `sublist_of` resolved
      ∧ (∀ link,
           Py.count link others
           = if bool_decide (link = TiasPdfSpider.primary_pdf it)
             then 0 else Py.count link resolved)
      ∧ (∀ i link,
           others !! i = Some link →
           ∃ before after,
             TiasPdfSpider.other_pdfs it = before ++ link ++ after
             ∧ length before = sum_list (length <$> take i others) + 2 * i
             ∧ (i ≠ 0 → ∃ front, before = front ++ str ", "))
      ∧ length (TiasPdfSpider.other_pdfs it)
        = sum_list (length <$> others) + 2 * (length others - 1).
Proof.
  intros it.
  assert (Hi : items (TiasPdfSpider.parse Samples.root_join Samples.detail_page)
               = [it]) by (by vm_compute).
  split; [done|]. split; [by vm_compute|].
  apply (other_pdfs_keep_order_and_duplicates Samples.root_join
           Samples.detail_page).
  rewrite Hi. by apply list_elem_of_singleton.
Defined.

Lemma elem_of_mapM {A B} (f : A -> option B) (l : list A) (k : list B) y :
  mapM f l = Some k → y ∈ k ↔ ∃ x, x ∈ l ∧ f x = Some y.
Proof.
  intros H%mapM_Some. induction H as [|x z l k Hxz _ IH].
  - split; [by intros ?%elem_of_nil|]. by intros (x & ?%elem_of_nil & _).
  - rewrite elem_of_cons, IH. split.
    + intros [->|(x' & Hin & Hf)]; [exists x|exists x'];
        (split; [|done]); [by left|by right].
    + intros (x' & [->|Hin]%elem_of_cons & Hf); [left; congruence|].
      right. by exists x'.
Qed.

(** C1 (as the code has it). In every record the detail extractor emits
    with a [primary_pdf] that is not empty, [other_pdfs] is the
    [", "]-join of the resolved [.pdf] hrefs other than [primary_pdf]:
    the joined list never has [primary_pdf] as an element, it holds
    exactly the resolved hrefs that differ from it, and its element
    number [i] stands in the field after the [i] elements before it and
    [i] separators. *)
Theorem other_pdfs_list_excludes_primary urljoin r it :
  it ∈ items (TiasPdfSpider.parse urljoin r) →
  TiasPdfSpider.primary_pdf it ≠ [] →
  ∃ others,
    TiasPdfSpider.other_pdfs it = Py.join (str ", ") others
    ∧ (TiasPdfSpider.primary_pdf it ∉ others)
    ∧ (∀ link,
         link ∈ others
         ↔ link ≠ TiasPdfSpider.primary_pdf it
           ∧ ∃ href,
               href ∈ css r (TiasPdfSpider.pdf_anchor (str "attr(href)"))
               ∧ urljoin (url r) href = Some link)
    ∧ (∀ i link,
         others !! i = Some link →
         ∃ before after,
           TiasPdfSpider.other_pdfs it = before ++ link ++ after
           ∧ length before = sum_list (length <$> take i others) + 2 * i
           ∧ (i ≠ 0 → ∃ front, before = front ++ str ", "))
    ∧ length (TiasPdfSpider.other_pdfs it)
      = sum_list (length <$> others) + 2 * (length others - 1).
Proof.
  intros (primary & links & -> & _ & _ & Hl & _)%pdf_items_inv _.
  exists (TiasPdfSpider.other_pdf_links primary links).
  cbn [TiasPdfSpider.make_record TiasPdfSpider.primary_pdf
         TiasPdfSpider.other_pdfs].
  split_and!.
  - done.
  - rewrite elem_of_other_pdf_links. by intros [? _].
  - intros link. rewrite elem_of_other_pdf_links.
    unfold TiasPdfSpider.all_pdf_links in Hl.
    by rewrite (elem_of_mapM _ _ _ link Hl).
  - intros i link Hi.
    destruct (join_lookup (str ", ") _ _ _ Hi)
      as (before & after & Hj & Hlen & Hsep).
    exists before, after. split_and!; [done| |done]. rewrite Hlen. cbn. lia.
  - rewrite join_length. cbn. lia.
Qed.

Lemma other_pdfs_list_excludes_primary_witness :
  let it :=
    TiasPdfSpider.make_record Samples.detail_page
      (str "https://www.state.gov/docs/a.pdf")
      [ str "https://www.state.gov/docs/a.pdf";
        str "https://www.state.gov/docs/b.pdf";
        str "https://www.state.gov/docs/b.pdf" ] in
  TiasPdfSpider.primary_pdf it = str "https://www.state.gov/docs/a.pdf"
  ∧ TiasPdfSpider.other_pdfs it
    = str "https://www.state.gov/docs/b.pdf, https://www.state.gov/docs/b.pdf"
  ∧ ∃ others,
      TiasPdfSpider.other_pdfs it = Py.join (str ", ") others
      ∧ (TiasPdfSpider.primary_pdf it ∉ others)
      ∧ (∀ link,
           link ∈ others
           ↔ link ≠ TiasPdfSpider.primary_pdf it
             ∧ ∃ href,
                 href ∈ css Samples.detail_page
                          (TiasPdfSpider.pdf_anchor (str "attr(href)"))
                 ∧ Samples.root_join (url Samples.detail_page) href
                   = Some link)
      ∧ (∀ i link,
           others !! i = Some link →
           ∃ before after,
             TiasPdfSpider.other_pdfs it = before ++ link ++ after
             ∧ length before = sum_list (length <$> take i others) + 2 * i
             ∧ (i ≠ 0 → ∃ front, before = front ++ str ", "))
      ∧ length (TiasPdfSpider.other_pdfs it)
        = sum_list (length <$> others) + 2 * (length others - 1).
Proof.
  intros it. split; [done|]. split; [by vm_compute|].
  apply (other_pdfs_list_excludes_primary Samples.root_join
           Samples.detail_page).
  - assert (items (TiasPdfSpider.parse Samples.root_join Samples.detail_page)
            = [it]) as -> by (by vm_compute).
    by apply list_elem_of_singleton.
  - by vm_compute.
Defined.

(** C1, as stated, fails on the sample page with nested PDF addresses:
    the record has a [primary_pdf] that is not empty, and its
    [other_pdfs] field contains that very string, once inside a longer
    address and once as the last piece between the separators. *)
Lemma other_pdfs_field_contains_primary :
  let primary := str "https://www.state.gov/docs/a.pdf" in
  let it :=
    TiasPdfSpider.make_record Samples.nested_pdf_page primary
      [ primary;
        str "https://www.state.gov/docs/a.pdf/annex.pdf";
        str "https://www.state.gov/x.pdf, https://www.state.gov/docs/a.pdf" ] in
  items (TiasPdfSpider.parse Samples.root_join Samples.nested_pdf_page) = [it]
  ∧ TiasPdfSpider.primary_pdf it = primary
  ∧ primary ≠ []
  ∧ TiasPdfSpider.other_pdfs it
    = (primary ++ str "/annex.pdf") ++ str ", "
      ++ str "https://www.state.gov/x.pdf" ++ str ", " ++ primary
  ∧ Py.contains (TiasPdfSpider.primary_pdf it) (TiasPdfSpider.other_pdfs it)
    = true.
Proof. cbv zeta. split_and!; by vm_compute. Qed.

(** ** The debug file of the index crawler *)

Lemma split_app_separator c (x y : pystr) :
  Py.split c (x ++ c :: y) = Py.split c x ++ Py.split c y.
Proof.
  induction x as [|a x IH]; cbn [app Py.split].
  - by rewrite Ascii.eqb_refl.
  - destruct (Ascii.eqb a c); rewrite IH; [done|].
    pose proof (split_nonempty c x). by destruct (Py.split c x).
Qed.

Lemma index_from_end_app_2 {A} (l : list A) (a b : A) :
  Py.index_from_end 2 (l ++ [a; b]) = Some a.
Proof.
  unfold Py.index_from_end. rewrite length_app. cbn [length].
  rewrite decide_True by lia.
  replace (length l + 2 - 2) with (length l + 0) by lia.
  by rewrite lookup_app_r, Nat.add_0_r, Nat.sub_diag by lia.
Qed.

(** The piece of the URL that names the debug file: what stands between
    the last two slashes, or before the only one. *)
Lemma url_segment (front segment back : pystr) :
  front = [] ∨ (∃ b, front = b ++ ["/"%char]) →
  "/"%char ∉ segment →
  "/"%char ∉ back →
  Py.index_from_end 2 (Py.split "/" (front ++ segment ++ "/"%char :: back))
  = Some segment.
Proof.
  intros Hfront Hs Hb.
  assert (Htail : Py.split "/" (segment ++ "/"%char :: back) = [segment; back]).
  { by rewrite split_app_separator, !split_no_separator. }
  destruct Hfront as [->|[b ->]].
  - cbn [app]. rewrite Htail. done.
  - rewrite <- app_assoc. cbn [app]. rewrite split_app_separator, Htail.
    apply index_from_end_app_2.
Qed.

(** C9 (as the code has it). For every index-page response whose URL is
    [front ++ segment ++ "/" ++ back], where the segment and the back
    have no slash and the front is empty or ends in a slash, and whose
    debug file [debug_html/<segment>.html] can be written: the parse step
    writes the text of the page to that file right after its two opening
    debug lines and before the blocked check; a blocked page so leaves
    the file and one error-level line that shows the URL, and no
    record. *)
Theorem debug_html_written_before_blocked_check d r front segment back :
  url r = front ++ segment ++ "/"%char :: back →
  front = [] ∨ (∃ b, front = b ++ ["/"%char]) →
  "/"%char ∉ segment →
  "/"%char ∉ back →
  write_file d (str "debug_html/" ++ segment ++ str ".html") (text r) = None →
  ∃ rest,
    raised (TiasLinksSpider.parse d r) = None
    ∧ trace (TiasLinksSpider.parse d r)
      = TiasLinksSpider.opening_log r
        ++ WriteFile (str "debug_html/" ++ segment ++ str ".html") (text r)
        :: Log DEBUG [ FLit (str "Saved HTML to ");
                       FStr (str "debug_html/" ++ segment ++ str ".html") ]
        :: rest
    ∧ Forall (fun e => log_level e = Some DEBUG) (TiasLinksSpider.opening_log r)
    ∧ (blocked r = true →
       rest = [ Log ERROR [ FLit (str "Blocked or forbidden response for ");
                            FStr (url r) ] ]
       ∧ items (TiasLinksSpider.parse d r) = [])
    ∧ (blocked r = false →
       Forall (fun e => log_level e ≠ Some ERROR) rest).
Proof.
  intros Hu Hfront Hs Hb Hw.
  assert (Hseg : Py.index_from_end 2 (Py.split "/" (url r)) = Some segment).
  { rewrite Hu. by apply url_segment. }
  change (str "debug_html/" ++ segment ++ str ".html")
    with (TiasLinksSpider.html_file segment) in *.
  rewrite (links_parse_trace _ _ _ Hseg Hw). cbn [trace raised].
  exists (if blocked r then [TiasLinksSpider.blocked_log r]
          else TiasLinksSpider.extract r).
  split_and!; [done|done|by repeat constructor| |].
  - intros ->. split; [done|].
    unfold items. cbn [trace]. by rewrite !omap_app.
  - intros ->. unfold TiasLinksSpider.extract.
    apply Forall_app. split; [by repeat constructor|].
    induction (TiasLinksSpider.agreement_links r) as [|x l IH];
      [constructor|].
    cbn [flat_map app]. by repeat constructor.
Qed.

Lemma debug_html_written_before_blocked_check_witness :
  let r := Samples.blocked_page in
  blocked r = true
  ∧ items (TiasLinksSpider.parse Samples.name_limit_disk r) = []
  ∧ trace (TiasLinksSpider.parse Samples.name_limit_disk r)
    = TiasLinksSpider.opening_log r
      ++ [ WriteFile (str "debug_html/2020-TIAS.html") (text r);
           Log DEBUG [ FLit (str "Saved HTML to ");
                       FStr (str "debug_html/2020-TIAS.html") ];
           Log ERROR [ FLit (str "Blocked or forbidden response for ");
                       FStr (url r) ] ].
Proof.
  intros r.
  assert (Hb : blocked r = true) by (by vm_compute).
  destruct (debug_html_written_before_blocked_check Samples.name_limit_disk r
              (str "https://www.state.gov/") (str "2020-TIAS")
              (str "?results=200"))
    as (rest & _ & Ht & _ & Hblocked & _).
  - reflexivity.
  - right. by exists (str "https://www.state.gov").
  - intros Hin. apply (bool_decide_pack _) in Hin. by vm_compute in Hin.
  - intros Hin. apply (bool_decide_pack _) in Hin. by vm_compute in Hin.
  - by vm_compute.
  - destruct (Hblocked Hb) as [-> Hi]. by split_and!.
Defined.

(** C9, as stated, fails for a response whose debug file cannot be
    opened: on a disk that refuses names of more than 255 characters the
    page with a URL segment of 305 characters reaches the parse step,
    which ends with [OSError] after its two opening lines and writes no
    file. *)
Lemma debug_html_not_written_for_long_name :
  let r := Samples.long_name_page in
  let run := TiasLinksSpider.parse Samples.name_limit_disk r in
  "/"%char ∈ url r
  ∧ raised run = Some OSError
  ∧ trace run = TiasLinksSpider.opening_log r
  ∧ ∀ path content, WriteFile path content ∉ trace run.
Proof.
  cbv zeta.
  assert (Ht : trace (TiasLinksSpider.parse Samples.name_limit_disk
                        Samples.long_name_page)
               = TiasLinksSpider.opening_log Samples.long_name_page)
    by (by vm_compute).
  split_and!.
  - apply (bool_decide_unpack _). by vm_compute.
  - by vm_compute.
  - done.
  - intros path content Hin. rewrite Ht in Hin.
    unfold TiasLinksSpider.opening_log in Hin.
    repeat (apply elem_of_cons in Hin as [Hin|Hin]; [discriminate Hin|]).
    by apply elem_of_nil in Hin.
Qed.

(** ** The records of the index crawler *)




(** C2 (as the code has it). For an index page that is not blocked and
    whose parse step raises no exception, the emitted URLs are, without
    repetition and in some order, the elements of the union of the
    strict-shaped parenthesised links of the text and of the result-list
    hrefs, less the empty href and the links that contain
    [treaties-and-agreements] in any letter case: one record per
    element. *)
Theorem index_links_are_filtered_union d r :
  raised (TiasLinksSpider.parse d r) = None →
  blocked r = false →
  let emitted := TiasLinksSpider.URL <$> items (TiasLinksSpider.parse d r) in
  let parenthesised : gset pystr :=
    list_to_set
      (List.filter (Re.matches Patterns.agreement_url_pattern)
         (Re.findall Patterns.url_pattern (text r))) in
  let anchors : gset pystr :=
    list_to_set
      (css r
         (str "ul.collection-results a.collection-result__link::attr(href)")) in
  let union :=
    filter (fun link =>
              link ≠ []
              ∧ Py.contains (str "treaties-and-agreements") (Py.lower link)
                = false)
      (parenthesised ∪ anchors) in
  NoDup emitted
  ∧ emitted ≡ₚ elements union
  ∧ length (items (TiasLinksSpider.parse d r)) = size union.
Proof.
  intros Hr Hb emitted parenthesised anchors union.
  assert (Hperm : emitted ≡ₚ elements union).
  { subst emitted union. rewrite (links_parse_urls _ _ Hr Hb).
    apply NoDup_Permutation.
    - apply NoDup_agreement_links.
    - apply NoDup_elements.
    - intros x. rewrite elem_of_agreement_links, elem_of_elements.
      rewrite elem_of_filter, elem_of_union. subst parenthesised anchors.
      rewrite !elem_of_list_to_set, kept_true. split.
      + intros [Hx|[Hx Hk]]; [|split; [exact Hk|by right]].
        split; [|by left]. apply kept_true, agreement_url_kept.
        unfold TiasLinksSpider.valid_markdown_links in Hx.
        by apply elem_of_List_filter in Hx as [_ ?].
      + intros [Hk [Hx|Hx]]; [by left|right; by split]. }
  split_and!.
  - subst emitted. rewrite (links_parse_urls _ _ Hr Hb).
    apply NoDup_agreement_links.
  - done.
  - unfold size, set_size. simpl. rewrite <- Hperm. subst emitted.
    by rewrite length_fmap.
Qed.

Lemma index_links_are_filtered_union_witness :
  let run := TiasLinksSpider.parse Samples.name_limit_disk
               Samples.rich_index_page in
  length (items run) = 2
  ∧ TiasLinksSpider.URL <$> items run
    ≡ₚ [str "https://www.state.gov/12-345"; str "/10-413"].
Proof.
  intros run.
  destruct (index_links_are_filtered_union Samples.name_limit_disk
              Samples.rich_index_page) as (_ & Hperm & Hlen);
    [by vm_compute|by vm_compute|].
  subst run. split.
  - rewrite Hlen. by vm_compute.
  - rewrite Hperm.
    match goal with
    | |- elements ?u ≡ₚ _ =>
        assert (elements u
                = [str "https://www.state.gov/12-345"; str "/10-413"]) as ->
          by (by vm_compute)
    end.
    done.
Defined.

(** C2, as stated, fails on a page whose result list has an anchor with
    an empty [href]: the union of the two sets without the year pages has
    one element, the empty link, and the crawler emits no record. *)
Lemma index_links_drop_empty_href :
  let r := Samples.empty_href_page in
  let run := TiasLinksSpider.parse Samples.name_limit_disk r in
  let claimed :=
    filter (fun link => TiasLinksSpider.is_year_page link = false)
      (TiasLinksSpider.markdown_set r ∪ TiasLinksSpider.anchor_set r) in
  blocked r = false
  ∧ raised run = None
  ∧ claimed = {[ [] ]}
  ∧ size claimed = 1
  ∧ items run = []
  ∧ length (items run) ≠ size claimed.
Proof.
  cbv zeta.
  assert (Hc : filter (fun link => TiasLinksSpider.is_year_page link = false)
                 (TiasLinksSpider.markdown_set Samples.empty_href_page
                  ∪ TiasLinksSpider.anchor_set Samples.empty_href_page)
               = ({[ [] ]} : gset pystr)).
  { by vm_compute. }
  assert (Hi : items (TiasLinksSpider.parse Samples.name_limit_disk
                        Samples.empty_href_page) = []).
  { by vm_compute. }
  rewrite Hc, Hi, size_singleton. by split_and!.
Qed.

(** ** The title of a detail page *)

Lemma star_lazy_Some {R} p (k : @Re.cont R) prev n s x :
  Re.star_lazy p k prev n s = Some x →
  ∃ u rest prev',
    s = u ++ rest ∧ Forall (fun c => p c = true) u
    ∧ k prev' (n + length u) rest = Some x.
Proof.
  revert prev n. induction s as [|c s IH]; intros prev n; cbn [Re.star_lazy].
  - destruct (k prev n []) eqn:E; [|done].
    intros [= <-]. exists [], [], prev. by rewrite Nat.add_0_r.
  - destruct (k prev n (c :: s)) eqn:E.
    + intros [= <-]. exists [], (c :: s), prev. by rewrite Nat.add_0_r.
    + destruct (p c) eqn:Hc; [|done].
      intros (u & rest & prev' & -> & Hu & H)%IH.
      exists (c :: u), rest, prev'. split; [done|]. split; [by constructor|].
      by rewrite length_cons, Nat.add_succ_r.
Qed.

(** A match of the headline pattern: the opening of the headline class,
    blanks, the captured text, blanks, the closing tag. *)
Lemma title_pattern_match prev here sp :
  Patterns.title_pattern prev here = Some sp →
  ∃ ws1 ws2 after,
    here = Patterns.headline_open ++ ws1 ++ Re.group1 sp here ++ ws2
           ++ str "</h1>" ++ after
    ∧ Forall (fun c => Char.is_space c = true) ws1
    ∧ Forall (fun c => Char.is_space c = true) ws2.
Proof.
  unfold Patterns.title_pattern. intros H.
  apply lit_Some in H as (prev1 & s1 & -> & H).
  apply star_Some in H as (ws1 & s2 & prev2 & -> & Hws1 & H).
  unfold Re.mark at 1 in H.
  apply star_lazy_Some in H as (g & s3 & prev3 & -> & _ & H).
  unfold Re.mark in H.
  apply star_Some in H as (ws2 & s4 & prev4 & -> & Hws2 & H).
  apply lit_Some in H as (prev5 & after & -> & H).
  assert (Hsp : Re.g_start sp = length Patterns.headline_open + length ws1
                ∧ Re.g_end sp
                  = length Patterns.headline_open + length ws1 + length g).
  { injection H as <-. split; reflexivity. }
  destruct Hsp as [Hs He]. clear H.
  exists ws1, ws2, after. split; [|done].
  assert (Hg : Re.group1 sp
                 (Patterns.headline_open ++ ws1 ++ g ++ ws2
                  ++ str "</h1>" ++ after) = g).
  { unfold Re.group1, Re.slice. rewrite Hs, He.
    replace (length Patterns.headline_open + length ws1 + length g
             - (length Patterns.headline_open + length ws1))
      with (length g) by lia.
    rewrite <- length_app, app_assoc, drop_app_length.
    by rewrite take_app_length. }
  by rewrite Hg.
Qed.

Lemma title_search_sound (t g : pystr) :
  Re.search Patterns.title_pattern t = Some g →
  ∃ before ws1 ws2 after,
    t = before ++ Patterns.headline_open ++ ws1 ++ g ++ ws2
        ++ str "</h1>" ++ after
    ∧ Forall (fun c => Char.is_space c = true) ws1
    ∧ Forall (fun c => Char.is_space c = true) ws2.
Proof.
  intros (before & prev & here & sp & -> & H & ->)%search_from_Some.
  destruct (title_pattern_match _ _ _ H) as (ws1 & ws2 & after & Hh & ? & ?).
  exists before, ws1, ws2, after. split; [|done]. by rewrite <- Hh.
Qed.

(** C8. In every record of the detail extractor the title comes from the
    raw-markup headline pattern first: when the pattern matches, the
    captured text stands in the markup between the opening of the
    headline class and a closing [</h1>], blanks aside, and the title is
    that text stripped and without its newlines and tabs, provided this
    is not empty. Exactly when the pattern does not match or leaves
    nothing, the title is the first answer of the headline selector,
    stripped, and it is the empty string when the selector has no answer
    either. *)
Theorem title_by_pattern_then_selector urljoin r it :
  it ∈ items (TiasPdfSpider.parse urljoin r) →
  let answers :=
    css r (str "h1.featured-content__headline.stars-above::text") in
  let by_selector :=
    (∀ first others,
       answers = first :: others → TiasPdfSpider.title it = Py.strip first)
    ∧ (answers = [] → TiasPdfSpider.title it = []) in
  (∀ g,
     Re.search Patterns.title_pattern (text r) = Some g →
     let cleaned := Py.remove_char "009" (Py.remove_char "010" (Py.strip g)) in
     (∃ before ws1 ws2 after,
        text r = before ++ Patterns.headline_open ++ ws1 ++ g ++ ws2
                 ++ str "</h1>" ++ after
        ∧ Forall (fun c => Char.is_space c = true) ws1
        ∧ Forall (fun c => Char.is_space c = true) ws2)
     ∧ ("010"%char ∉ cleaned)
     ∧ ("009"%char ∉ cleaned)
     ∧ (cleaned ≠ [] → TiasPdfSpider.title it = cleaned)
     ∧ (cleaned = [] → by_selector))
  ∧ (Re.search Patterns.title_pattern (text r) = None → by_selector).
Proof.
  intros (primary & links & -> & _)%pdf_items_inv answers by_selector.
  cbn [TiasPdfSpider.make_record TiasPdfSpider.title] in *.
  assert (Hsel : TiasPdfSpider.pattern_title r = [] → by_selector).
  { intros Hp. subst by_selector answers. cbn beta.
    unfold TiasPdfSpider.extract_title. rewrite bool_decide_eq_true_2 by done.
    unfold TiasPdfSpider.selector_title.
    change TiasPdfSpider.headline_selector
      with (str "h1.featured-content__headline.stars-above::text").
    split.
    - by intros first others ->.
    - by intros ->. }
  split.
  - intros g Hg. cbv zeta.
    set (cleaned := Py.remove_char "009" (Py.remove_char "010" (Py.strip g))).
    assert (Hp : TiasPdfSpider.pattern_title r = cleaned).
    { unfold TiasPdfSpider.pattern_title. by rewrite Hg. }
    split_and!.
    + by apply title_search_sound.
    + intros Hin%elem_of_remove_char. by apply not_elem_of_remove_char in Hin.
    + apply not_elem_of_remove_char.
    + intros Hne. unfold TiasPdfSpider.extract_title. rewrite Hp.
      by rewrite bool_decide_eq_false_2.
    + intros Hempty. apply Hsel. by rewrite Hp.
  - intros Hnone. apply Hsel.
    unfold TiasPdfSpider.pattern_title. by rewrite Hnone.
Qed.

Lemma title_by_pattern_then_selector_witness :
  let by_pattern :=
    TiasPdfSpider.make_record Samples.multiline_title_page [] [] in
  let by_selector :=
    TiasPdfSpider.make_record Samples.selector_title_page [] [] in
  items (TiasPdfSpider.parse Samples.root_join Samples.multiline_title_page)
  = [by_pattern]
  ∧ TiasPdfSpider.title by_pattern = str "Agreement on Trade"
  ∧ items (TiasPdfSpider.parse Samples.root_join Samples.selector_title_page)
    = [by_selector]
  ∧ TiasPdfSpider.title by_selector = str "Agreement on Fisheries".
Proof.
  intros by_pattern by_selector.
  assert (Hp : items (TiasPdfSpider.parse Samples.root_join
                        Samples.multiline_title_page) = [by_pattern])
    by (by vm_compute).
  assert (Hs : items (TiasPdfSpider.parse Samples.root_join
                        Samples.selector_title_page) = [by_selector])
    by (by vm_compute).
  split_and!; [done| |done|].
  - destruct (title_by_pattern_then_selector Samples.root_join
                Samples.multiline_title_page by_pattern) as [Hmatch _].
    { rewrite Hp. by apply list_elem_of_singleton. }
    destruct (Hmatch (str "Agreement" ++ ["010"; "009"]%char ++ str " on Trade"))
      as (_ & _ & _ & Ht & _); [by vm_compute|].
    rewrite Ht; by vm_compute.
  - destruct (title_by_pattern_then_selector Samples.root_join
                Samples.selector_title_page by_selector) as [_ Hnone].
    { rewrite Hs. by apply list_elem_of_singleton. }
    destruct Hnone as [Hfirst _]; [by vm_compute|].
    rewrite (Hfirst (" "%char :: str "Agreement on Fisheries"
                       ++ [" "; "010"]%char) [str "second"]);
      by vm_compute.
Defined.

(** ** Records and exceptions of the detail extractor *)

(** X16. For a page that is not blocked the detail extractor yields
    exactly one record, with the URL of the page as [source_url], when
    [urljoin] accepts the href of the download button (if it is not
    empty) and every [.pdf] href; otherwise its parse step ends with
    [ValueError] and yields nothing. When the headline pattern does not
    match and no query has an answer, [urljoin] is not called and the
    other five fields of the record are empty strings. *)
Theorem one_record_per_page urljoin r :
  blocked r = false →
  let button := Py.get_default (css r (str "a.button--download::attr(href)")) in
  let refs :=
    (if bool_decide (button = []) then [] else [button])
    ++ css r (TiasPdfSpider.pdf_anchor (str "attr(href)")) in
  let run := TiasPdfSpider.parse urljoin r in
  (Forall (fun href => is_Some (urljoin (url r) href)) refs →
   raised run = None
   ∧ ∃ it, items run = [it] ∧ TiasPdfSpider.source_url it = url r)
  ∧ (¬ Forall (fun href => is_Some (urljoin (url r) href)) refs →
     raised run = Some ValueError ∧ items run = [])
  ∧ (Re.search Patterns.title_pattern (text r) = None →
     (∀ q, css r q = []) →
     (∀ q, xpath r q = []) →
     raised run = None
     ∧ items run
       = [ {| TiasPdfSpider.source_url := url r;
              TiasPdfSpider.title := [];
              TiasPdfSpider.paragraphs := [];
              TiasPdfSpider.agreement_codes := [];
              TiasPdfSpider.primary_pdf := [];
              TiasPdfSpider.other_pdfs := [] |} ]).
Proof.
  intros Hb button refs run.
  assert (Hrun : run = {| trace := TiasPdfSpider.opening_log r
                                   ++ trace (TiasPdfSpider.extract urljoin r);
                          raised := raised (TiasPdfSpider.extract urljoin r) |}).
  { subst run. unfold TiasPdfSpider.parse. by rewrite Hb. }
  assert (Hrefs : Forall (fun href => is_Some (urljoin (url r) href)) refs
                  ↔ is_Some (TiasPdfSpider.extract_primary_pdf urljoin r)
                    ∧ is_Some (TiasPdfSpider.all_pdf_links urljoin r)).
  { subst refs. rewrite Forall_app.
    unfold TiasPdfSpider.all_pdf_links. rewrite mapM_is_Some.
    unfold TiasPdfSpider.extract_primary_pdf. fold button.
    case_bool_decide.
    - split; [intros [_ ?]; by split|intros [_ ?]; by split].
    - rewrite Forall_singleton. done. }
  assert (Hitems : items run
                   = match TiasPdfSpider.record urljoin r with
                     | Some it => [it]
                     | None => []
                     end).
  { subst run. by rewrite pdf_parse_items, Hb. }
  split_and!.
  - intros [[primary Hp] [links Hl]]%Hrefs. rewrite Hitems, Hrun.
    unfold TiasPdfSpider.record, TiasPdfSpider.extract. rewrite Hp, Hl.
    split; [done|]. by eexists.
  - intros Hnot. rewrite Hitems, Hrun.
    unfold TiasPdfSpider.record, TiasPdfSpider.extract.
    destruct (TiasPdfSpider.extract_primary_pdf urljoin r) as [primary|] eqn:Hp;
      [|done].
    destruct (TiasPdfSpider.all_pdf_links urljoin r) as [links|] eqn:Hl;
      [|done].
    destruct Hnot. apply Hrefs. by split.
  - intros Hs Hcss Hxp. rewrite Hitems, Hrun.
    unfold TiasPdfSpider.record, TiasPdfSpider.extract,
      TiasPdfSpider.extract_primary_pdf, TiasPdfSpider.all_pdf_links.
    rewrite !Hcss. cbn [Py.get_default mapM]. rewrite bool_decide_eq_true_2 by done.
    split; [done|]. unfold TiasPdfSpider.make_record. do 2 f_equal.
    + unfold TiasPdfSpider.extract_title, TiasPdfSpider.pattern_title,
        TiasPdfSpider.selector_title. by rewrite Hs, Hcss.
    + by rewrite Hxp.
    + unfold TiasPdfSpider.extract_codes, TiasPdfSpider.code_set,
        TiasPdfSpider.pooled_codes. rewrite Hxp, Hcss.
      change (list_to_set _) with (∅ : gset pystr). by rewrite elements_empty.
Qed.

Lemma one_record_per_page_witness :
  let empty := {| url := str "https://www.state.gov/12-345/"; status := 200;
                  headers := []; text := str "<html></html>";
                  css := fun _ => []; xpath := fun _ => [] |} in
  items (TiasPdfSpider.parse Samples.root_join empty)
  = [ {| TiasPdfSpider.source_url := url empty;
         TiasPdfSpider.title := [];
         TiasPdfSpider.paragraphs := [];
         TiasPdfSpider.agreement_codes := [];
         TiasPdfSpider.primary_pdf := [];
         TiasPdfSpider.other_pdfs := [] |} ]
  ∧ raised (TiasPdfSpider.parse Samples.root_join Samples.bad_href_page)
    = Some ValueError
  ∧ items (TiasPdfSpider.parse Samples.root_join Samples.bad_href_page) = [].
Proof.
  intros empty. split.
  - destruct (one_record_per_page Samples.root_join empty) as (_ & _ & He);
      [by vm_compute|].
    by destruct He as [_ ->]; [by vm_compute|done|done|].
  - destruct (one_record_per_page Samples.root_join Samples.bad_href_page)
      as (_ & Hbad & _); [by vm_compute|].
    apply Hbad. intros Hall. apply Forall_inv in Hall as [link Hlink].
    by vm_compute in Hlink.
Defined.
